(** * markoom: text processing and the Quran / Surah / Ayah data model

    A shallow embedding of [src/markoom/processing.py], [src/markoom/core.py]
    and [src/markoom/exceptions.py], followed by the properties of the
    specification that concern them.

    Conventions of the embedding:
    - a Python [str] is the list of its Unicode code points ([list N]);
      the ASCII-only strings of the program (keyword names, script names,
      file names, messages) are [string]s;
    - a Python [int] is a [Z];
    - a [dict] is a [gmap]; a [list] is a [list];
    - a call that may raise returns a [result]. *)

From Stdlib Require Import ZArith NArith List Lia Bool.
From stdpp Require Import gmap strings list fin_maps pretty.

Local Open Scope N_scope.

(** ** Python builtins used by the program *)

Module Py.

(** Exceptions: the builtin ones the program can raise and the three of
    [exceptions.py], each with the arguments of its constructor. *)
Inductive exn : Type :=
| TypeError
| ValueError (msg : string)
| IndexError
| InvalidSurahNumberError (surah_number : Z)
| InvalidAyahNumberError (surah_number ayah_number : Z)
| DataFileError (file_path : string).

Inductive result (A : Type) : Type :=
| Ok (a : A)
| Raise (e : exn).
Arguments Ok {A} a.
Arguments Raise {A} e.

Definition bind {A B} (r : result A) (k : A -> result B) : result B :=
  match r with
  | Ok a => k a
  | Raise e => Raise e
  end.

(** [str.isspace] on one code point, as used by [str.split()] without
    arguments: the code points of [_PyUnicode_IsWhitespace]. *)
Definition isspace (c : N) : bool :=
  ((0x09 <=? c) && (c <=? 0x0D))
  || ((0x1C <=? c) && (c <=? 0x20))
  || (c =? 0x85) || (c =? 0xA0) || (c =? 0x1680)
  || ((0x2000 <=? c) && (c <=? 0x200A))
  || (c =? 0x2028) || (c =? 0x2029) || (c =? 0x202F)
  || (c =? 0x205F) || (c =? 0x3000).

(** [text.split()]: a left-to-right scan with two states.  [skip] runs
    over whitespace between words; at the first other character it
    starts a word, which [scan] extends up to the next whitespace
    character or the end of the text.  [scan] returns the rest of the
    word being read and the words after it. *)
Fixpoint skip (s : list N) : list (list N) :=
  match s with
  | [] => []
  | c :: s' =>
      if isspace c then skip s'
      else let '(w, ts) := scan s' in (c :: w) :: ts
  end
with scan (s : list N) : list N * list (list N) :=
  match s with
  | [] => ([], [])
  | c :: s' =>
      if isspace c then ([], skip s')
      else let '(w, ts) := scan s' in (c :: w, ts)
  end.

Definition split (s : list N) : list (list N) := skip s.

(** [word.startswith(prefix)] and its form with a tuple of prefixes. *)
Fixpoint startswith (word prefix : list N) : bool :=
  match prefix, word with
  | [], _ => true
  | _ :: _, [] => false
  | p :: prefix', c :: word' => (c =? p) && startswith word' prefix'
  end.

Definition startswith_any (word : list N) (prefixes : list (list N)) : bool :=
  existsb (startswith word) prefixes.

(** [text.replace(c, '')] for a one-character [c]. *)
Definition remove_char (c : N) (text : list N) : list N :=
  List.filter (fun d => negb (d =? c)) text.

(** [sep.join(parts)]. *)
Fixpoint join (sep : list N) (parts : list (list N)) : list N :=
  match parts with
  | [] => []
  | p :: ps =>
      match ps with
      | [] => p
      | _ :: _ => p ++ sep ++ join sep ps
      end
  end.

(** [l[i]] on a list: a negative index counts from the end, an index out
    of range raises [IndexError]. *)
Definition getitem {A} (l : list A) (i : Z) : result A :=
  let n := Z.of_nat (length l) in
  let j := if (i <? 0)%Z then (i + n)%Z else i in
  if (j <? 0)%Z then Raise IndexError
  else match l !! Z.to_nat j with
       | Some x => Ok x
       | None => Raise IndexError
       end.

(** [re.sub(pattern, repl, text)] for a pattern that is an alternation
    of single characters: every character that matches one of the
    alternatives is replaced by [repl], every other one is kept. *)
Fixpoint re_sub (alternatives : list N) (repl : list N) (text : list N) : list N :=
  match text with
  | [] => []
  | c :: text' =>
      if existsb (N.eqb c) alternatives
      then repl ++ re_sub alternatives repl text'
      else c :: re_sub alternatives repl text'
  end.

End Py.

Import Py.

(** [result] is an error monad; stdpp's [x ← r; k] sequences two calls and
    lets the exception of the first one through. *)
#[global] Instance result_ret : MRet result := fun A a => Ok a.
#[global] Instance result_bind : MBind result := fun A B k r => Py.bind r k.
#[global] Instance result_fmap : FMap result :=
  fun A B f r => Py.bind r (fun a => Ok (f a)).

(** The ASCII space, [' ']. *)
Definition SPACE : N := 0x20.

(** ** processing.py *)

Module processing.

(** The alternatives of the verbose pattern [ARABIC_DIACRITICS], in the
    order of the source: shadda, fatha, tanwin fath, damma, tanwin damm,
    kasra, tanwin kasr, sukun, tatwil. *)
Definition ARABIC_DIACRITICS : list N :=
  [0x651; 0x64E; 0x64B; 0x64F; 0x64C; 0x650; 0x64D; 0x652; 0x640].

(** Hamza forms of alif to alif, ta marbuta to ha, alif maqsura to ya. *)
Definition ARABIC_NORMALIZATION_MAP : gmap N N :=
  {[ 0x623 := 0x627; 0x625 := 0x627; 0x622 := 0x627;
     0x629 := 0x647;
     0x649 := 0x64A ]}.

Definition remove_diacritics (text : list N) : list N :=
  re_sub ARABIC_DIACRITICS [] text.

Definition normalize_char (char : N) : N :=
  default char (ARABIC_NORMALIZATION_MAP !! char).

Definition normalize_arabic (text : list N) : list N :=
  join [] (map (fun char => [normalize_char char]) text).

(** The two conjunction letters, waw and fa. *)
Definition WAW : N := 0x648.
Definition FA : N := 0x641.

(** One iteration of the loop of [tokenize]: [tokens] after [word] has
    been handled.  In the first branch [len(word) > 1] holds, so
    [word[0]] is the one-character string [take 1 word]. *)
Definition tokenize_step (tokens : list (list N)) (word : list N) : list (list N) :=
  if (1 <? length word)%nat && startswith_any word [[WAW]; [FA]]
  then (tokens ++ [take 1 word]) ++ [drop 1 word]
  else tokens ++ [word].

Definition tokenize (text : list N) (split_on_wa : bool) : list (list N) :=
  let words := split text in
  if negb split_on_wa then words
  else fold_left tokenize_step words [].

End processing.

(** ** core.py *)

(** The keyword arguments of a call, [**kwargs]: a dictionary from
    parameter names to the (boolean) values passed. *)
Abbreviation kwargs := (gmap string bool).

(** A method [def f(self, **kwargs)] called as [obj.f( **kw )]: the keywords
    are collected in [kwargs], except that a keyword named [self] collides
    with the first parameter, which is a [TypeError] raised before the body
    runs. *)
Definition bind_kwargs (kw : kwargs) : result kwargs :=
  match kw !! "self" with
  | Some _ => Raise TypeError
  | None => Ok kw
  end.

Module Ayah.

Record t : Type := mk {
  surah_number : Z;
  number : Z;
  raw_text : list N
}.

Definition get_processed_text (self : t) (normalize remove_diacritics : bool) : list N :=
  let text := raw_text self in
  let text := if remove_diacritics then processing.remove_diacritics text else text in
  let text := if normalize then processing.normalize_arabic text else text in
  text.

(** The call [self.get_processed_text( **kw )]: the signature has the two
    parameters [normalize] and [remove_diacritics], both defaulting to
    [True]; any other keyword is a [TypeError]. *)
Definition call_get_processed_text (self : t) (kw : kwargs) : result (list N) :=
  if decide (dom kw ⊆ ({["normalize"; "remove_diacritics"]} : gset string))
  then Ok (get_processed_text self
             (default true (kw !! "normalize"))
             (default true (kw !! "remove_diacritics")))
  else Raise TypeError.

(** [get_words], [word_count] and [letter_count] take [**kwargs].
    [get_words] reads its three options with [kwargs.get(name, default)]
    and passes the first two on by name; [letter_count] passes the whole
    dictionary on to [get_processed_text]. *)
Definition get_words (self : t) (kw : kwargs) : result (list (list N)) :=
  kwargs ← bind_kwargs kw;
  let text_to_tokenize :=
    get_processed_text self
      (default true (kwargs !! "normalize"))
      (default true (kwargs !! "remove_diacritics")) in
  Ok (processing.tokenize text_to_tokenize
        (default false (kwargs !! "split_on_wa"))).

Definition word_count (self : t) (kw : kwargs) : result Z :=
  kwargs ← bind_kwargs kw;
  words ← get_words self kwargs;
  Ok (Z.of_nat (length words)).

Definition letter_count (self : t) (kw : kwargs) : result Z :=
  kwargs ← bind_kwargs kw;
  processed_text ← call_get_processed_text self kwargs;
  Ok (Z.of_nat (length (remove_char SPACE processed_text))).

End Ayah.

Module Surah.

Record t : Type := mk {
  number : Z;
  name : list N;
  ayahs : list Ayah.t
}.

Definition get_ayah (self : t) (ayah_number : Z) : result Ayah.t :=
  if ((1 <=? ayah_number) && (ayah_number <=? Z.of_nat (length (ayahs self))))%Z
  then getitem (ayahs self) (ayah_number - 1)
  else Raise (InvalidAyahNumberError (number self) ayah_number).

(** [sum(f(ayah) for ayah in self.ayahs)]: the first exception ends it. *)
Fixpoint sum_results (f : Ayah.t -> result Z) (l : list Ayah.t) : result Z :=
  match l with
  | [] => Ok 0%Z
  | ayah :: l' => n ← f ayah; total ← sum_results f l'; Ok (n + total)%Z
  end.

Definition word_count (self : t) (kw : kwargs) : result Z :=
  kwargs ← bind_kwargs kw;
  sum_results (fun ayah => Ayah.word_count ayah kwargs) (ayahs self).

Definition letter_count (self : t) (kw : kwargs) : result Z :=
  kwargs ← bind_kwargs kw;
  sum_results (fun ayah => Ayah.letter_count ayah kwargs) (ayahs self).

End Surah.

(** The XML document, as [ElementTree] presents it to [_load_data]: the
    [sura] children of the root in document order, each with its [index]
    and [name] attributes and its [aya] children, each of those with its
    [index] and [text] attributes and, where present, its [bismillah]
    attribute. *)
Record aya_element : Type := {
  aya_index : Z;
  aya_text : list N;
  aya_bismillah : option (list N)
}.

Record sura_element : Type := {
  sura_index : Z;
  sura_name : list N;
  sura_ayas : list aya_element
}.

(** What construction reads from outside: the directory of the package and
    the files that exist under its [data] directory, by file name, each as
    the document [ET.parse] makes of it.  A file that [ET.parse] rejects,
    or whose [index] attributes [int] rejects, is not represented: the
    model covers the files that are documents of [sura] and [aya]
    elements. *)
Record environment : Type := {
  package_dir : string;
  data_files : gmap string (list sura_element)
}.

Module Quran.

Record t : Type := mk {
  script : string;
  _surahs : gmap Z Surah.t
}.

(** The name of the file [_load_data] opens: the name chosen by the
    conditional is overwritten by the assignment that follows it. *)
Definition file_name (script : string) : string :=
  let file_name :=
    if String.eqb script "uthmani"
    then "quran-" +:+ script +:+ "-min.xml"
    else "quran-" +:+ script +:+ "-clean.xml" in
  let file_name := "quran-" +:+ script +:+ "-min.xml" in
  file_name.

Definition file_path (env : environment) (script : string) : string :=
  package_dir env +:+ "/data/" +:+ file_name script.

(** [sura_element.find('aya')]: the first [aya] child, if there is one.
    Elements are compared by identity, so a child is named by its position
    among the [aya] children. *)
Definition find_aya (sura_element : sura_element) : option nat :=
  match sura_ayas sura_element with
  | [] => None
  | _ :: _ => Some 0%nat
  end.

(** The body of the inner loop, for the [aya] child at [position]. *)
Definition load_ayah (sura_element : sura_element) (sura_number : Z)
    (position : nat) (aya_element : aya_element) : Ayah.t :=
  let ayah_number := aya_index aya_element in
  let ayah_text := aya_text aya_element in
  let ayah_text :=
    match aya_bismillah aya_element with
    | Some bismillah =>
        if bool_decide (Some position = find_aya sura_element)
        then bismillah ++ [SPACE] ++ ayah_text
        else ayah_text
    | None => ayah_text
    end in
  Ayah.mk sura_number ayah_number ayah_text.

(** The body of the outer loop. *)
Definition load_surah (surahs : gmap Z Surah.t) (sura_element : sura_element)
    : gmap Z Surah.t :=
  let sura_number := sura_index sura_element in
  let sura_name := sura_name sura_element in
  let ayahs_list := imap (load_ayah sura_element sura_number) (sura_ayas sura_element) in
  <[ sura_number := Surah.mk sura_number sura_name ayahs_list ]> surahs.

Definition _load_data (env : environment) (script : string) : result (gmap Z Surah.t) :=
  match data_files env !! file_name script with
  | None => Raise (DataFileError (file_path env script))
  | Some root => Ok (fold_left load_surah root ∅)
  end.

Definition __init__ (env : environment) (script : string) : result t :=
  if bool_decide (script ∈ ["uthmani"; "simple"])
  then surahs ← _load_data env script; Ok (mk script surahs)
  else Raise (ValueError "Script must be either 'uthmani' or 'simple'.").

Definition get_surah (self : t) (surah_number : Z) : result Surah.t :=
  match _surahs self !! surah_number with
  | None => Raise (InvalidSurahNumberError surah_number)
  | Some surah => Ok surah
  end.

Definition get_ayah (self : t) (surah_number ayah_number : Z) : result Ayah.t :=
  surah ← get_surah self surah_number;
  Surah.get_ayah surah ayah_number.

End Quran.

(** ** exceptions.py: the message of each exception *)

Definition message (e : exn) : string :=
  match e with
  | InvalidSurahNumberError surah_number =>
      "Invalid Surah number: " +:+ pretty surah_number
        +:+ ". Must be between 1 and 114."
  | InvalidAyahNumberError surah_number ayah_number =>
      "Invalid Ayah number: " +:+ pretty ayah_number
        +:+ " for Surah " +:+ pretty surah_number +:+ "."
  | DataFileError file_path =>
      "Quran data file not found at: " +:+ file_path
        +:+ ". Please ensure it is correctly placed."
  | ValueError msg => msg
  | TypeError => "unexpected keyword argument"
  | IndexError => "list index out of range"
  end.

(** ** The specification's own words, as definitions

    These follow the text of the specification, not the code; the theorems
    below compare them with the code. *)

Module spec.

(** Conjunction splitting of one token: a token of length greater than one
    whose first character is a conjunction letter becomes two tokens, its
    first character alone and the remainder; any other token stays. *)
Definition is_conjunction_letter (c : N) : bool :=
  (c =? processing.WAW) || (c =? processing.FA).

Definition split_conjunction (token : list N) : list (list N) :=
  match token with
  | c :: rest =>
      if (1 <? length token)%nat && is_conjunction_letter c
      then [[c]; rest]
      else [token]
  | [] => [token]
  end.

(** A text with its whitespace runs collapsed: every maximal run of
    whitespace characters becomes one space. *)
Fixpoint collapse (text : list N) : list N :=
  match text with
  | [] => []
  | c :: text' =>
      if isspace c then
        match text' with
        | [] => [SPACE]
        | d :: _ => if isspace d then collapse text' else SPACE :: collapse text'
        end
      else c :: collapse text'
  end.

(** A text without its leading and trailing whitespace. *)
Fixpoint lstrip (text : list N) : list N :=
  match text with
  | [] => []
  | c :: text' => if isspace c then lstrip text' else text
  end.

Definition rstrip (text : list N) : list N := rev (lstrip (rev text)).

Definition strip (text : list N) : list N := rstrip (lstrip text).

(** A token as the tokenizer should produce it: not empty and free of
    whitespace. *)
Definition well_formed_token (token : list N) : Prop :=
  token ≠ [] ∧ Forall (fun c => isspace c = false) token.

(** A diacritic: a character that [remove_diacritics] deletes. *)
Definition is_diacritic (c : N) : Prop := c ∈ processing.ARABIC_DIACRITICS.


(** The invariant of a chapter, [verses[i].number == i+1]: the numbers of
    its verses, in order, are 1, 2, ..., up to their count. *)
Definition verses_numbered (chapter : Surah.t) : Prop :=
  Ayah.number <$> Surah.ayahs chapter
  = seqZ 1 (Z.of_nat (length (Surah.ayahs chapter))).

(** The options of a call, all three given, and the two of them that
    concern the text alone. *)
Definition configuration (normalize remove_diacritics split_on_conjunction : bool)
    : gmap string bool :=
  {[ "normalize" := normalize;
     "remove_diacritics" := remove_diacritics;
     "split_on_wa" := split_on_conjunction ]}.

Definition text_configuration (normalize remove_diacritics : bool)
    : gmap string bool :=
  {[ "normalize" := normalize; "remove_diacritics" := remove_diacritics ]}.

(** The raw text the load should give the verse record at [position]
    (counted from 0) among the verse elements of its chapter: the
    invocation phrase, one space and the literal text for the first
    element when it carries the phrase, the literal text otherwise. *)
Definition expected_raw_text (position : nat) (record : aya_element) : list N :=
  match aya_bismillah record with
  | Some phrase =>
      if decide (position = 0%nat)
      then phrase ++ [SPACE] ++ aya_text record
      else aya_text record
  | None => aya_text record
  end.

End spec.

(** ** Sample data *)

Module examples.

(** waw + fatha, alif, two spaces, fa, alif with hamza, shadda, space. *)
Definition verse : Ayah.t :=
  Ayah.mk 1 1 [0x648; 0x64E; 0x627; 0x20; 0x20; 0x641; 0x623; 0x651; 0x20].

Definition chapter : Surah.t :=
  Surah.mk 1 [0x41]
    [Ayah.mk 1 1 [0x628]; Ayah.mk 1 2 [0x62A]; Ayah.mk 1 3 [0x62B]].

(** A chapter whose first two verse elements both carry the phrase, and a
    chapter whose first verse element does not. *)
Definition small_document : list sura_element :=
  [ {| sura_index := 1; sura_name := [0x41];
       sura_ayas :=
         [ {| aya_index := 1; aya_text := [0x628]; aya_bismillah := Some [0x62A] |};
           {| aya_index := 2; aya_text := [0x628]; aya_bismillah := Some [0x62A] |} ] |};
    {| sura_index := 2; sura_name := [0x42];
       sura_ayas :=
         [ {| aya_index := 1; aya_text := [0x62B]; aya_bismillah := None |} ] |} ].

Definition small_environment : environment :=
  {| package_dir := "/markoom";
     data_files := {[ "quran-uthmani-min.xml" := small_document ]} |}.




Definition small_collection : Quran.t :=
  Quran.mk "uthmani" (fold_left Quran.load_surah small_document ∅).

(** The first chapter of [small_collection]. *)
Definition small_chapter : Surah.t :=
  Surah.mk 1 [0x41] [Ayah.mk 1 1 [0x62A; 0x20; 0x628]; Ayah.mk 1 2 [0x628]].

End examples.

(** ** Further vocabulary for the properties of the code *)

Module facts.

(** A letter form that [normalize_arabic] replaces: a key of the table. *)
Definition is_variant_letter (c : N) : Prop :=
  is_Some (processing.ARABIC_NORMALIZATION_MAP !! c).

(** A token that conjunction splitting divides: longer than one character
    and starting with waw or fa. *)
Definition splittable (token : list N) : bool :=
  match token with
  | c :: _ :: _ => spec.is_conjunction_letter c
  | _ => false
  end.

(** The tokens of a list that are not empty, and what is left of a list
    of tokens when the characters that fail [p] are deleted from each and
    the tokens this empties are dropped. *)
Definition nonempty_tokens (tokens : list (list N)) : list (list N) :=
  List.filter (fun token => negb (Nat.eqb (length token) 0)) tokens.

Definition kept_tokens (p : N -> bool) (tokens : list (list N))
    : list (list N) :=
  nonempty_tokens (map (List.filter p) tokens).

(** Whether a character is a diacritic can be decided: the list is finite. *)
#[global] Instance is_diacritic_dec (c : N) : Decision (spec.is_diacritic c) :=
  list_elem_of_dec c processing.ARABIC_DIACRITICS.

(** The verse whose raw text is the processed text of [verse]. *)
Definition processed_verse (verse : Ayah.t) (normalize remove_diacritics : bool)
    : Ayah.t :=
  Ayah.mk (Ayah.surah_number verse) (Ayah.number verse)
    (Ayah.get_processed_text verse normalize remove_diacritics).

(** The chapter [_load_data] builds from a chapter element. *)
Definition built_chapter (sura : sura_element) : Surah.t :=
  Surah.mk (sura_index sura) (sura_name sura)
    (imap (Quran.load_ayah sura (sura_index sura)) (sura_ayas sura)).

(** Sample data: two well-formed tokens, and a document in which two
    chapter elements share the index 1. *)
Definition two_tokens : list (list N) := [[0x648; 0x627]; [0x641]].

Definition duplicate_document : list sura_element :=
  [ {| sura_index := 1; sura_name := [0x41];
       sura_ayas :=
         [ {| aya_index := 1; aya_text := [0x628]; aya_bismillah := None |} ] |};
    {| sura_index := 1; sura_name := [0x42];
       sura_ayas :=
         [ {| aya_index := 7; aya_text := [0x62A]; aya_bismillah := None |};
           {| aya_index := 8; aya_text := [0x62B]; aya_bismillah := None |} ] |} ].

Definition duplicate_environment : environment :=
  {| package_dir := "/markoom";
     data_files := {[ "quran-simple-min.xml" := duplicate_document ]} |}.

Definition duplicate_collection : Quran.t :=
  Quran.mk "simple" (fold_left Quran.load_surah duplicate_document ∅).

End facts.

(** ** TextNormalizer *)

Section normalizer.

Lemma re_sub_delete (alternatives text : list N) :
  re_sub alternatives [] text
  = List.filter (fun c => negb (existsb (N.eqb c) alternatives)) text.
Proof.
  induction text as [|c text IH]; simpl; [done|].
  destruct (existsb (N.eqb c) alternatives); simpl; by rewrite IH.
Qed.

Lemma filter_twice {A} (p : A -> bool) (l : list A) :
  List.filter p (List.filter p l) = List.filter p l.
Proof.
  induction l as [|x l IH]; simpl; [done|].
  destruct (p x) eqn:Hp; simpl; rewrite ?Hp, IH; done.
Qed.

Lemma remove_diacritics_filter (text : list N) :
  processing.remove_diacritics text
  = List.filter (fun c => negb (existsb (N.eqb c) processing.ARABIC_DIACRITICS)) text.
Proof. apply re_sub_delete. Qed.

Lemma join_singletons (f : N -> N) (text : list N) :
  join [] (map (fun c => [f c]) text) = map f text.
Proof.
  induction text as [|c text IH]; simpl; [done|].
  destruct text as [|d text]; [done|].
  change (map (fun c => [f c]) (d :: text))
    with ([f d] :: map (fun c => [f c]) text) in *.
  simpl in *. by rewrite IH.
Qed.

Lemma normalize_arabic_map (text : list N) :
  processing.normalize_arabic text = map processing.normalize_char text.
Proof. apply join_singletons. Qed.

(** The substitution table, read as a function. *)
Lemma normalize_char_cases (c : N) :
  processing.normalize_char c =
    if decide (c = 0x623) then 0x627
    else if decide (c = 0x625) then 0x627
    else if decide (c = 0x622) then 0x627
    else if decide (c = 0x629) then 0x647
    else if decide (c = 0x649) then 0x64A
    else c.
Proof.
  unfold processing.normalize_char, processing.ARABIC_NORMALIZATION_MAP.
  repeat (case_decide; [subst; reflexivity|]).
  rewrite !lookup_insert_ne, lookup_singleton_ne by done. done.
Qed.

Lemma normalize_char_idempotent (c : N) :
  processing.normalize_char (processing.normalize_char c)
  = processing.normalize_char c.
Proof.
  rewrite (normalize_char_cases c).
  repeat (case_decide; [reflexivity|]).
  rewrite normalize_char_cases.
  repeat (case_decide; [done|]). done.
Qed.

Lemma normalize_char_space (c : N) :
  processing.normalize_char c = SPACE ↔ c = SPACE.
Proof.
  rewrite normalize_char_cases. unfold SPACE.
  repeat (case_decide; [subst; split; intros; discriminate|]). done.
Qed.

Lemma normalize_arabic_length (text : list N) :
  length (processing.normalize_arabic text) = length text.
Proof. rewrite normalize_arabic_map. apply length_map. Qed.

End normalizer.

(** ** Tokenizer: [str.split()] *)

Section split_facts.

(** Induction along the two states of the scan. *)
Lemma skip_scan_ind
    (P : list N -> list (list N) -> Prop)
    (Q : list N -> list N * list (list N) -> Prop) :
  P [] [] ->
  Q [] ([], []) ->
  (forall c s, isspace c = true ->
     P s (skip s) -> Q s (scan s) -> P (c :: s) (skip s)) ->
  (forall c s w ts, isspace c = false -> scan s = (w, ts) ->
     P s (skip s) -> Q s (w, ts) -> P (c :: s) ((c :: w) :: ts)) ->
  (forall c s, isspace c = true ->
     P s (skip s) -> Q s (scan s) -> Q (c :: s) ([], skip s)) ->
  (forall c s w ts, isspace c = false -> scan s = (w, ts) ->
     P s (skip s) -> Q s (w, ts) -> Q (c :: s) (c :: w, ts)) ->
  forall s, P s (skip s) ∧ Q s (scan s).
Proof.
  intros P0 Q0 Pskip Pword Qend Qmore.
  induction s as [|c s [IHP IHQ]]; [split; assumption|].
  simpl. destruct (isspace c) eqn:Hc.
  - split; [apply Pskip | apply Qend]; assumption.
  - destruct (scan s) as [w ts] eqn:Hscan.
    split; [apply Pword | apply Qmore]; assumption.
Qed.

Lemma split_tokens_well_formed (s : list N) :
  Forall spec.well_formed_token (skip s)
  ∧ (Forall (fun c => isspace c = false) (scan s).1
     ∧ Forall spec.well_formed_token (scan s).2).
Proof.
  revert s. apply (skip_scan_ind
           (fun _ ts => Forall spec.well_formed_token ts)
           (fun _ r => Forall (fun c => isspace c = false) r.1
                       ∧ Forall spec.well_formed_token r.2)); simpl.
  - constructor.
  - split; constructor.
  - intros; assumption.
  - intros c s w ts Hc _ _ [Hw Hts]. constructor; [|assumption].
    split; [discriminate|]. constructor; assumption.
  - intros c s _ IH _. split; [constructor | assumption].
  - intros c s w ts Hc _ _ [Hw Hts]. split; [constructor|]; assumption.
Qed.

Lemma split_concat (s : list N) :
  concat (skip s) = List.filter (fun c => negb (isspace c)) s
  ∧ (scan s).1 ++ concat (scan s).2 = List.filter (fun c => negb (isspace c)) s.
Proof.
  revert s. apply (skip_scan_ind
           (fun s ts => concat ts = List.filter (fun c => negb (isspace c)) s)
           (fun s r => r.1 ++ concat r.2
                       = List.filter (fun c => negb (isspace c)) s));
    simpl; try done.
  - intros c s Hc IH _. by rewrite Hc.
  - intros c s w ts Hc _ _ IH. rewrite Hc. simpl. by rewrite <- IH.
  - intros c s Hc IH _. by rewrite Hc.
  - intros c s w ts Hc _ _ IH. rewrite Hc. simpl. by rewrite <- IH.
Qed.

Lemma skip_all_space (s : list N) :
  forallb isspace s = true -> skip s = [].
Proof.
  induction s as [|c s IH]; simpl; [done|].
  destruct (isspace c); simpl; [assumption | discriminate].
Qed.

Lemma skip_not_all_space (s : list N) :
  forallb isspace s = false -> skip s ≠ [].
Proof.
  induction s as [|c s IH]; simpl; [discriminate|].
  destruct (isspace c); simpl; [assumption|].
  intros _. destruct (scan s). discriminate.
Qed.

(** Stripping. *)
Lemma lstrip_all_space (s : list N) :
  forallb isspace s = true -> spec.lstrip s = [].
Proof.
  induction s as [|c s IH]; simpl; [done|].
  destruct (isspace c); simpl; [assumption | discriminate].
Qed.

Lemma lstrip_snoc (s : list N) (c : N) :
  spec.lstrip (s ++ [c]) =
    if forallb isspace s then spec.lstrip [c] else spec.lstrip s ++ [c].
Proof.
  induction s as [|d s IH]; [done|].
  simpl. destruct (isspace d); simpl; [exact IH | reflexivity].
Qed.

Lemma forallb_rev {A} (p : A -> bool) (l : list A) :
  forallb p (rev l) = forallb p l.
Proof.
  induction l as [|x l IH]; simpl; [done|].
  rewrite forallb_app, IH. simpl. rewrite andb_true_r. apply andb_comm.
Qed.

Lemma rstrip_cons (c : N) (s : list N) :
  spec.rstrip (c :: s) =
    if forallb isspace s then (if isspace c then [] else [c])
    else c :: spec.rstrip s.
Proof.
  unfold spec.rstrip. simpl. rewrite lstrip_snoc, forallb_rev.
  destruct (forallb isspace s).
  - simpl. destruct (isspace c); reflexivity.
  - rewrite rev_app_distr. reflexivity.
Qed.

Lemma rstrip_all_space (s : list N) :
  forallb isspace s = true -> spec.rstrip s = [].
Proof.
  intros H. unfold spec.rstrip.
  rewrite lstrip_all_space; [done|]. by rewrite forallb_rev.
Qed.

Lemma rstrip_head (d : N) (s : list N) :
  forallb isspace (d :: s) = false ->
  exists rest, spec.rstrip (d :: s) = d :: rest.
Proof.
  intros H. rewrite rstrip_cons. simpl in H.
  destruct (forallb isspace s).
  - rewrite andb_true_r in H. rewrite H. by eexists.
  - by eexists.
Qed.

Lemma collapse_rstrip_word (c : N) (s : list N) :
  isspace c = false ->
  spec.collapse (spec.rstrip (c :: s)) = c :: spec.collapse (spec.rstrip s).
Proof.
  intros Hc. rewrite rstrip_cons, Hc.
  destruct (forallb isspace s) eqn:Hs.
  - rewrite rstrip_all_space by assumption. simpl. by rewrite Hc.
  - simpl. by rewrite Hc.
Qed.

Lemma collapse_space_cons (c d : N) (rest : list N) :
  isspace c = true ->
  spec.collapse (c :: d :: rest) =
    if isspace d then spec.collapse (d :: rest)
    else SPACE :: spec.collapse (d :: rest).
Proof. intros Hc. simpl. rewrite Hc. reflexivity. Qed.

Lemma join_cons (sep t : list N) (ts : list (list N)) :
  join sep (t :: ts)
  = t ++ match ts with [] => [] | _ :: _ => sep ++ join sep ts end.
Proof. destruct ts; simpl; [by rewrite app_nil_r | done]. Qed.

(** Joining the words of a text with single spaces gives the text
    stripped and collapsed; inside a word, what is still to come is the
    right-stripped rest, collapsed. *)
Lemma split_join_collapse (s : list N) :
  join [SPACE] (skip s) = spec.collapse (spec.strip s)
  ∧ (scan s).1
      ++ match (scan s).2 with
         | [] => []
         | _ :: _ => SPACE :: join [SPACE] (scan s).2
         end
    = spec.collapse (spec.rstrip s).
Proof.
  revert s. apply (skip_scan_ind
           (fun s ts => join [SPACE] ts = spec.collapse (spec.strip s))
           (fun s r => r.1 ++ match r.2 with
                              | [] => []
                              | _ :: _ => SPACE :: join [SPACE] r.2
                              end
                       = spec.collapse (spec.rstrip s))).
  - reflexivity.
  - reflexivity.
  - intros c s Hc IH _. unfold spec.strip in *. simpl. by rewrite Hc.
  - intros c s w ts Hc _ _ IH. simpl in IH.
    unfold spec.strip. simpl spec.lstrip. rewrite Hc.
    rewrite collapse_rstrip_word by assumption.
    rewrite join_cons, <- IH. simpl. by destruct ts.
  - intros c s Hc IHP IHQ. simpl fst. simpl snd. rewrite app_nil_l.
    destruct (forallb isspace s) eqn:Hs.
    + rewrite skip_all_space by assumption.
      rewrite rstrip_all_space; [done|]. simpl. by rewrite Hc, Hs.
    + rewrite rstrip_cons, Hs.
      pose proof (skip_not_all_space s Hs) as Hne.
      destruct s as [|d s]; [discriminate|].
      destruct (rstrip_head d s Hs) as [rest Hrest].
      rewrite Hrest in *. rewrite collapse_space_cons by assumption.
      destruct (isspace d) eqn:Hd.
      * rewrite <- IHQ. simpl. by rewrite Hd.
      * unfold spec.strip in IHP. simpl spec.lstrip in IHP.
        rewrite Hd, Hrest in IHP. rewrite <- IHP.
        by destruct (skip (d :: s)).
  - intros c s w ts Hc _ _ IH. simpl in *.
    rewrite collapse_rstrip_word by assumption. by rewrite <- IH.
Qed.

End split_facts.

(** ** Tokenizer: conjunction splitting *)

Section tokenize_facts.

Lemma tokenize_step_app (tokens : list (list N)) (word : list N) :
  processing.tokenize_step tokens word
  = tokens ++ processing.tokenize_step [] word.
Proof.
  unfold processing.tokenize_step.
  destruct ((1 <? length word)%nat && _); simpl; [|done].
  by rewrite <- app_assoc.
Qed.

(** The loop of [tokenize] appends, word by word, what one iteration
    appends to an empty list. *)
Lemma tokenize_loop (words tokens : list (list N)) :
  fold_left processing.tokenize_step words tokens
  = tokens ++ flat_map (processing.tokenize_step []) words.
Proof.
  revert tokens. induction words as [|word words IH]; intros tokens; simpl.
  - by rewrite app_nil_r.
  - rewrite IH, (tokenize_step_app tokens word). by rewrite <- app_assoc.
Qed.

Lemma startswith_nil (word : list N) : startswith word [] = true.
Proof. by destruct word. Qed.

(** One iteration does to a word what the specification says. *)
Lemma tokenize_step_split_conjunction (word : list N) :
  processing.tokenize_step [] word = spec.split_conjunction word.
Proof.
  unfold processing.tokenize_step, spec.split_conjunction.
  destruct word as [|c rest]; [done|].
  unfold startswith_any, spec.is_conjunction_letter. simpl.
  rewrite !startswith_nil, !andb_true_r, orb_false_r, take_0, drop_0.
  reflexivity.
Qed.

Lemma tokenize_split_on_wa (text : list N) :
  processing.tokenize text true
  = flat_map spec.split_conjunction (processing.tokenize text false).
Proof.
  unfold processing.tokenize. simpl. rewrite tokenize_loop. simpl.
  apply flat_map_ext. intros word. apply tokenize_step_split_conjunction.
Qed.

Lemma split_conjunction_concat (token : list N) :
  concat (spec.split_conjunction token) = token.
Proof.
  unfold spec.split_conjunction. destruct token as [|c rest]; [done|].
  destruct (_ && _); simpl; by rewrite app_nil_r.
Qed.

Lemma split_conjunction_length (token : list N) :
  (1 <= length (spec.split_conjunction token) <= 2)%nat.
Proof.
  unfold spec.split_conjunction. destruct token as [|c rest]; simpl; [lia|].
  destruct (_ && _); simpl; lia.
Qed.

Lemma flat_map_concat (f : list N -> list (list N)) (tokens : list (list N)) :
  (forall token, concat (f token) = token) ->
  concat (flat_map f tokens) = concat tokens.
Proof.
  intros Hf. induction tokens as [|token tokens IH]; simpl; [done|].
  by rewrite concat_app, Hf, IH.
Qed.

Lemma flat_map_length_ge (f : list N -> list (list N)) (tokens : list (list N)) :
  (forall token, (1 <= length (f token))%nat) ->
  (length tokens <= length (flat_map f tokens))%nat.
Proof.
  intros Hf. induction tokens as [|token tokens IH]; simpl; [done|].
  rewrite length_app. specialize (Hf token). lia.
Qed.

End tokenize_facts.

(** ** Verse: counting letters *)

Section letter_facts.

Lemma filter_filter_length {A} (p q : A -> bool) (l : list A) :
  (length (List.filter p (List.filter q l)) <= length (List.filter p l))%nat.
Proof.
  induction l as [|x l IH]; simpl; [done|].
  destruct (q x), (p x) eqn:Hp; simpl; rewrite ?Hp; simpl; lia.
Qed.

Lemma remove_char_normalize_length (text : list N) :
  length (remove_char SPACE (processing.normalize_arabic text))
  = length (remove_char SPACE text).
Proof.
  rewrite normalize_arabic_map. unfold remove_char.
  induction text as [|c text IH]; simpl; [done|].
  replace (processing.normalize_char c =? SPACE) with (c =? SPACE).
  - destruct (c =? SPACE); simpl; by rewrite IH.
  - destruct (N.eqb_spec c SPACE) as [->|Hne]; [done|].
    symmetry. apply N.eqb_neq. by rewrite normalize_char_space.
Qed.

Lemma letter_count_text (verse : Ayah.t) (normalize remove_diacritics : bool) :
  Ayah.letter_count verse (spec.text_configuration normalize remove_diacritics)
  = Ok (Z.of_nat (length (remove_char SPACE
          (Ayah.get_processed_text verse normalize remove_diacritics)))).
Proof. by destruct normalize, remove_diacritics. Qed.

Lemma processed_letters_le (verse : Ayah.t) :
  (length (remove_char SPACE (Ayah.get_processed_text verse true true))
   <= length (remove_char SPACE (Ayah.get_processed_text verse false false)))%nat.
Proof.
  unfold Ayah.get_processed_text.
  rewrite remove_char_normalize_length, remove_diacritics_filter.
  apply filter_filter_length.
Qed.

End letter_facts.

(** ** Chapter: lookup by number *)

Section chapter_facts.

Lemma getitem_in_range {A} (l : list A) (i : Z) :
  (0 <= i < Z.of_nat (length l))%Z ->
  exists x, getitem l i = Ok x ∧ l !! Z.to_nat i = Some x.
Proof.
  intros Hi. unfold getitem.
  destruct (i <? 0)%Z eqn:Hneg; [lia|]. rewrite Hneg.
  destruct (l !! Z.to_nat i) as [x|] eqn:Hx; [by exists x|].
  apply lookup_ge_None in Hx. lia.
Qed.

Lemma verses_numbered_lookup (chapter : Surah.t) (i : nat) (verse : Ayah.t) :
  spec.verses_numbered chapter ->
  Surah.ayahs chapter !! i = Some verse ->
  Ayah.number verse = (Z.of_nat i + 1)%Z.
Proof.
  unfold spec.verses_numbered. intros Hnum Hi.
  assert ((Ayah.number <$> Surah.ayahs chapter) !! i = Some (Ayah.number verse))
    as Hn by (by rewrite list_lookup_fmap, Hi).
  rewrite Hnum in Hn. apply lookup_seqZ in Hn. lia.
Qed.

Lemma get_ayah_out_of_range (chapter : Surah.t) (v : Z) :
  (v < 1 ∨ Z.of_nat (length (Surah.ayahs chapter)) < v)%Z ->
  Surah.get_ayah chapter v
  = Raise (InvalidAyahNumberError (Surah.number chapter) v).
Proof.
  intros Hv. unfold Surah.get_ayah.
  destruct ((1 <=? v)%Z && _) eqn:Hguard; [|done].
  apply andb_true_iff in Hguard as [H1 H2]. lia.
Qed.

Lemma get_ayah_in_range (chapter : Surah.t) (v : Z) :
  (1 <= v <= Z.of_nat (length (Surah.ayahs chapter)))%Z ->
  exists verse, Surah.get_ayah chapter v = Ok verse
                ∧ Surah.ayahs chapter !! Z.to_nat (v - 1) = Some verse.
Proof.
  intros Hv. unfold Surah.get_ayah.
  destruct ((1 <=? v)%Z && _) eqn:Hguard.
  - apply getitem_in_range. lia.
  - apply andb_false_iff in Hguard as [H|H]; lia.
Qed.

End chapter_facts.

(** ** TextCollection: load and lookup *)

Section collection_facts.

(** Every chapter of the mapping after the loop was either there before
    or built from a chapter element with its index. *)
Lemma load_loop_lookup (root : list sura_element) (surahs : gmap Z Surah.t)
    (k : Z) (chapter : Surah.t) :
  fold_left Quran.load_surah root surahs !! k = Some chapter ->
  surahs !! k = Some chapter
  ∨ exists sura, sura ∈ root ∧ sura_index sura = k
      ∧ chapter = Surah.mk k (sura_name sura)
                    (imap (Quran.load_ayah sura k) (sura_ayas sura)).
Proof.
  revert surahs. induction root as [|sura root IH]; intros surahs; simpl.
  - by left.
  - intros Hk. apply IH in Hk as [Hk | (sura' & Hin & Hidx & Hch)].
    + unfold Quran.load_surah in Hk.
      destruct (decide (sura_index sura = k)) as [Heq|Hne].
      * rewrite Heq, lookup_insert_eq in Hk. injection Hk as <-.
        right. exists sura. split; [by left | by split].
      * rewrite lookup_insert_ne in Hk by done. by left.
    + right. exists sura'. split; [by right | by split].
Qed.

Lemma init_inversion (env : environment) (script : string) (q : Quran.t) :
  Quran.__init__ env script = Ok q ->
  exists root, data_files env !! Quran.file_name script = Some root
               ∧ Quran._surahs q = fold_left Quran.load_surah root ∅.
Proof.
  unfold Quran.__init__, Quran._load_data.
  destruct (bool_decide _); [|discriminate].
  destruct (data_files env !! Quran.file_name script) as [root|]; [|discriminate].
  simpl. intros [= <-]. by exists root.
Qed.

Lemma loaded_chapter (env : environment) (script : string) (q : Quran.t)
    (k : Z) (chapter : Surah.t) :
  Quran.__init__ env script = Ok q ->
  Quran._surahs q !! k = Some chapter ->
  exists root sura,
    data_files env !! Quran.file_name script = Some root
    ∧ sura ∈ root ∧ sura_index sura = k
    ∧ chapter = Surah.mk k (sura_name sura)
                  (imap (Quran.load_ayah sura k) (sura_ayas sura)).
Proof.
  intros Hinit Hk. apply init_inversion in Hinit as (root & Hroot & Hs).
  rewrite Hs in Hk. apply load_loop_lookup in Hk as [Hk | (sura & ? & ? & ?)].
  - by rewrite lookup_empty in Hk.
  - by exists root, sura.
Qed.

Lemma load_ayah_raw_text (sura : sura_element) (k : Z) (i : nat)
    (record : aya_element) :
  sura_ayas sura !! i = Some record ->
  Ayah.raw_text (Quran.load_ayah sura k i record)
  = spec.expected_raw_text i record.
Proof.
  intros Hi. unfold Quran.load_ayah, spec.expected_raw_text, Quran.find_aya.
  simpl. destruct (aya_bismillah record) as [phrase|]; [|done].
  destruct (sura_ayas sura) as [|first rest]; [done|].
  destruct i as [|i]; by simpl.
Qed.


End collection_facts.

(** ** The claims *)

(** C1 (as stated, refuted): [get_processed_text] called with all three
    options raises [TypeError]: its signature has the two parameters
    [normalize] and [remove_diacritics] and no [split_on_wa]. *)
Lemma C1_counterexample :
  Ayah.call_get_processed_text examples.verse
    (spec.configuration true true false)
  = Raise TypeError.
Proof. reflexivity. Qed.

(** C1 (amended): for every verse and every combination of the three
    options, [get_words] and [word_count] take that configuration and
    return a value: the tokens of the processed text and their number.
    [get_processed_text] takes the two options [normalize] and
    [remove_diacritics] only: for every combination of these it returns
    the processed text, and it raises [TypeError] whenever the keywords
    hold [split_on_wa], or any key other than its two.  [letter_count]
    called with any combination of [normalize] and [remove_diacritics]
    returns the number of characters of the processed text other than the
    space; nothing is said here of [letter_count] called with
    [split_on_wa].  These calls are pure reads: what they return is
    determined by the raw text of the verse and the options alone, so a
    verse [other] with the same raw text gets the same values. *)
Theorem C1_operations_return (verse other : Ayah.t)
    (normalize remove_diacritics split_on_conjunction : bool)
    (kw : gmap string bool) :
  let text := Ayah.get_processed_text verse normalize remove_diacritics in
  let words := processing.tokenize text split_on_conjunction in
  Ayah.get_words verse
      (spec.configuration normalize remove_diacritics split_on_conjunction)
    = Ok words
  ∧ Ayah.word_count verse
      (spec.configuration normalize remove_diacritics split_on_conjunction)
    = Ok (Z.of_nat (length words))
  ∧ Ayah.call_get_processed_text verse
      (spec.text_configuration normalize remove_diacritics)
    = Ok text
  ∧ (is_Some (kw !! "split_on_wa") ->
     Ayah.call_get_processed_text verse kw = Raise TypeError)
  ∧ (forall k, is_Some (kw !! k) ->
               k ≠ "normalize" -> k ≠ "remove_diacritics" ->
               Ayah.call_get_processed_text verse kw = Raise TypeError)
  ∧ Ayah.letter_count verse
      (spec.text_configuration normalize remove_diacritics)
    = Ok (Z.of_nat (length (remove_char SPACE text)))
  ∧ (Ayah.raw_text other = Ayah.raw_text verse ->
     Ayah.get_words other
         (spec.configuration normalize remove_diacritics split_on_conjunction)
       = Ok words
     ∧ Ayah.word_count other
         (spec.configuration normalize remove_diacritics split_on_conjunction)
       = Ok (Z.of_nat (length words))
     ∧ Ayah.call_get_processed_text other
         (spec.text_configuration normalize remove_diacritics)
       = Ok text
     ∧ Ayah.letter_count other
         (spec.text_configuration normalize remove_diacritics)
       = Ok (Z.of_nat (length (remove_char SPACE text)))).
Proof.
  intros text words.
  assert (forall k, is_Some (kw !! k) ->
            k ≠ "normalize" -> k ≠ "remove_diacritics" ->
            Ayah.call_get_processed_text verse kw = Raise TypeError)
    as Hother.
  { intros k Hk Hn Hd. unfold Ayah.call_get_processed_text.
    destruct (decide _) as [Hdom|]; [|done].
    apply elem_of_dom in Hk. apply Hdom in Hk.
    rewrite elem_of_union, !elem_of_singleton in Hk. by destruct Hk. }
  assert (forall v : Ayah.t,
            Ayah.raw_text v = Ayah.raw_text verse ->
            Ayah.get_words v
                (spec.configuration normalize remove_diacritics
                   split_on_conjunction)
              = Ok words
            ∧ Ayah.word_count v
                (spec.configuration normalize remove_diacritics
                   split_on_conjunction)
              = Ok (Z.of_nat (length words))
            ∧ Ayah.call_get_processed_text v
                (spec.text_configuration normalize remove_diacritics)
              = Ok text
            ∧ Ayah.letter_count v
                (spec.text_configuration normalize remove_diacritics)
              = Ok (Z.of_nat (length (remove_char SPACE text)))) as Hread.
  { intros v Hraw. subst text words. unfold Ayah.get_processed_text.
    rewrite <- Hraw.
    destruct normalize, remove_diacritics, split_on_conjunction;
      repeat split; reflexivity. }
  destruct (Hread verse eq_refl) as (Hwords & Hcount & Htext & Hletters).
  split; [exact Hwords|]. split; [exact Hcount|]. split; [exact Htext|].
  split; [|split; [exact Hother|split; [exact Hletters|exact (Hread other)]]].
  intros Hsplit. by apply (Hother "split_on_wa").
Qed.

(** C2 (as stated, refuted): the file read for the simplified variant is
    not the file read for the primary variant. *)
Lemma C2_counterexample :
  Quran.file_name "simple" ≠ Quran.file_name "uthmani".
Proof. discriminate. Qed.

(** C2 (amended): whatever the variant, the file name is reassigned to
    ["quran-<script>-min.xml"], the primary variant's pattern with the
    requested script in it; the name with ["-clean"] is never used.  The
    simplified variant therefore reads ["quran-simple-min.xml"], and that
    is the file [_load_data] looks up. *)
Theorem C2_file_name (env : environment) (script : string) :
  Quran.file_name script = "quran-" +:+ script +:+ "-min.xml"
  ∧ Quran.file_name "simple" = "quran-simple-min.xml"
  ∧ Quran.file_name "uthmani" = "quran-uthmani-min.xml"
  ∧ Quran._load_data env script
    = match data_files env !! ("quran-" +:+ script +:+ "-min.xml") with
      | None =>
          Raise (DataFileError
                   (package_dir env +:+ "/data/"
                      +:+ ("quran-" +:+ script +:+ "-min.xml")))
      | Some root => Ok (fold_left Quran.load_surah root ∅)
      end.
Proof. repeat split; reflexivity. Qed.

(** C3: tokenizing with conjunction splitting gives the tokens of the
    plain tokenization, in order, each token longer than one character
    that starts with waw or fa replaced by its first character and its
    remainder, every other token kept; a one-character token is never
    split, and no token gives more than two. *)
Theorem C3_tokenize_split_on_conjunction (text : list N) :
  processing.tokenize text true
  = flat_map spec.split_conjunction (processing.tokenize text false)
  ∧ (forall c, spec.split_conjunction [c] = [[c]])
  ∧ (forall token, (length (spec.split_conjunction token) <= 2)%nat).
Proof.
  split; [apply tokenize_split_on_wa|]. split.
  - intros c. reflexivity.
  - intros token. apply split_conjunction_length.
Qed.

(** C4 (as stated, refuted): for a text that starts with whitespace, the
    tokens joined with single spaces are not the text with its whitespace
    runs collapsed: the leading run leaves no space. *)
Lemma C4_counterexample :
  join [SPACE] (processing.tokenize [SPACE; 0x627] false)
  ≠ spec.collapse [SPACE; 0x627].
Proof. discriminate. Qed.

(** C4 (amended): every token of the plain tokenization is non-empty and
    free of whitespace; the tokens, concatenated, are the characters of
    the text other than whitespace, in the order of the text; and the
    tokens joined with single spaces are the text with its leading and
    trailing whitespace removed and its other whitespace runs
    collapsed. *)
Theorem C4_tokenize_whitespace (text : list N) :
  let tokens := processing.tokenize text false in
  Forall spec.well_formed_token tokens
  ∧ concat tokens = List.filter (fun c => negb (isspace c)) text
  ∧ join [SPACE] tokens = spec.collapse (spec.strip text).
Proof.
  simpl. unfold processing.tokenize, split. simpl. repeat split.
  - apply split_tokens_well_formed.
  - apply split_concat.
  - apply split_join_collapse.
Qed.

(** C5: in a chapter whose verses are numbered 1, 2, ... in order,
    [get_ayah v] raises [InvalidAyahNumberError] with the chapter number
    and [v] when [v < 1] or [v] exceeds the verse count; otherwise it
    returns the verse at position [v] counted from 1, whose number is [v],
    so that looking up the number of the verse found finds it again. *)
Theorem C5_get_verse (chapter : Surah.t) (v : Z) :
  spec.verses_numbered chapter ->
  ((v < 1 ∨ Z.of_nat (length (Surah.ayahs chapter)) < v)%Z ∧
   Surah.get_ayah chapter v
   = Raise (InvalidAyahNumberError (Surah.number chapter) v))
  ∨ ((1 <= v <= Z.of_nat (length (Surah.ayahs chapter)))%Z ∧
     exists verse,
       Surah.get_ayah chapter v = Ok verse
       ∧ Surah.ayahs chapter !! Z.to_nat (v - 1) = Some verse
       ∧ Ayah.number verse = v
       ∧ Surah.get_ayah chapter (Ayah.number verse) = Surah.get_ayah chapter v).
Proof.
  intros Hnum.
  destruct (decide (1 <= v <= Z.of_nat (length (Surah.ayahs chapter)))%Z)
    as [Hin|Hout].
  - right. split; [assumption|].
    destruct (get_ayah_in_range chapter v Hin) as (verse & Hget & Hlook).
    exists verse. split; [assumption|]. split; [assumption|].
    assert (Ayah.number verse = v) as Hv.
    { rewrite (verses_numbered_lookup chapter _ verse Hnum Hlook). lia. }
    split; [assumption|]. by rewrite Hv.
  - left. split; [lia|]. apply get_ayah_out_of_range. lia.
Qed.

Lemma C5_get_verse_witness :
  (exists verse, Surah.get_ayah examples.chapter 2 = Ok verse
                 ∧ Ayah.number verse = 2%Z)
  ∧ Surah.get_ayah examples.chapter 0 = Raise (InvalidAyahNumberError 1 0)
  ∧ Surah.get_ayah examples.chapter 4 = Raise (InvalidAyahNumberError 1 4).
Proof.
  assert (spec.verses_numbered examples.chapter) as Hnum by reflexivity.
  split; [|split].
  - destruct (C5_get_verse examples.chapter 2 Hnum)
      as [[Hout _] | [_ (verse & Hget & _ & Hn & _)]].
    + simpl in Hout. lia.
    + exists verse. split; assumption.
  - destruct (C5_get_verse examples.chapter 0 Hnum)
      as [[_ Hget] | [Hin _]]; [exact Hget | lia].
  - destruct (C5_get_verse examples.chapter 4 Hnum)
      as [[_ Hget] | [Hin _]]; [exact Hget | simpl in Hin; lia].
Defined.



(** C7: each of the two normalizers is idempotent. *)
Theorem C7_normalizers_idempotent (s : list N) :
  processing.remove_diacritics (processing.remove_diacritics s)
  = processing.remove_diacritics s
  ∧ processing.normalize_arabic (processing.normalize_arabic s)
    = processing.normalize_arabic s.
Proof.
  split.
  - rewrite !remove_diacritics_filter. apply filter_twice.
  - rewrite !normalize_arabic_map, map_map.
    apply map_ext. intros c. apply normalize_char_idempotent.
Qed.

(** C8: for a verse that contains a diacritic, the letter count with
    [normalize] and [remove_diacritics] both true is at most the letter
    count with both false.  Normalization keeps the length of a text and
    maps a character to the space exactly when it is the space. *)
Theorem C8_letter_count_le (verse : Ayah.t) :
  Exists spec.is_diacritic (Ayah.raw_text verse) ->
  (exists processed raw : Z,
     Ayah.letter_count verse (spec.text_configuration true true) = Ok processed
     ∧ Ayah.letter_count verse (spec.text_configuration false false) = Ok raw
     ∧ (processed <= raw)%Z)
  ∧ (forall text, length (processing.normalize_arabic text) = length text)
  ∧ (forall c, processing.normalize_char c = SPACE ↔ c = SPACE).
Proof.
  intros _. split; [|split].
  - eexists _, _. rewrite !letter_count_text.
    split; [reflexivity|]. split; [reflexivity|].
    apply Nat2Z.inj_le, processed_letters_le.
  - apply normalize_arabic_length.
  - apply normalize_char_space.
Qed.

Lemma C8_letter_count_le_witness :
  exists processed raw : Z,
    Ayah.letter_count examples.verse (spec.text_configuration true true)
      = Ok processed
    ∧ Ayah.letter_count examples.verse (spec.text_configuration false false)
      = Ok raw
    ∧ (processed <= raw)%Z.
Proof.
  apply (C8_letter_count_le examples.verse).
  apply Exists_cons_tl, Exists_cons_hd.
  unfold spec.is_diacritic, processing.ARABIC_DIACRITICS.
  apply list_elem_of_In. simpl. tauto.
Defined.

(** C9: in a loaded collection, every chapter comes from a chapter element
    of the document, verse for verse in order, and the raw text of each
    verse is the invocation phrase, one space and the literal text of its
    record exactly when the record carries the phrase and is the first
    verse element of the chapter; otherwise it is the literal text. *)
Theorem C9_load_raw_text (env : environment) (script : string) (q : Quran.t)
    (k : Z) (chapter : Surah.t) :
  Quran.__init__ env script = Ok q ->
  Quran._surahs q !! k = Some chapter ->
  exists root sura,
    data_files env !! Quran.file_name script = Some root
    ∧ sura ∈ root ∧ sura_index sura = k
    ∧ length (Surah.ayahs chapter) = length (sura_ayas sura)
    ∧ forall (i : nat) (record : aya_element),
        sura_ayas sura !! i = Some record ->
        exists verse,
          Surah.ayahs chapter !! i = Some verse
          ∧ Ayah.raw_text verse = spec.expected_raw_text i record
          ∧ ((exists phrase, aya_bismillah record = Some phrase
                ∧ Ayah.raw_text verse = phrase ++ [SPACE] ++ aya_text record)
             ↔ (is_Some (aya_bismillah record) ∧ i = 0%nat))
          ∧ (¬ (is_Some (aya_bismillah record) ∧ i = 0%nat) ->
             Ayah.raw_text verse = aya_text record).
Proof.
  intros Hinit Hlook.
  destruct (loaded_chapter env script q k chapter Hinit Hlook)
    as (root & sura & Hroot & Hin & Hidx & ->).
  exists root, sura. simpl.
  split; [assumption|]. split; [assumption|]. split; [assumption|].
  split; [apply length_imap|].
  intros i record Hi. exists (Quran.load_ayah sura k i record).
  split; [by rewrite list_lookup_imap, Hi|].
  rewrite (load_ayah_raw_text sura k i record Hi).
  split; [reflexivity|].
  unfold spec.expected_raw_text.
  destruct (aya_bismillah record) as [phrase|] eqn:Hb.
  - destruct (decide (i = 0%nat)) as [->|Hne]; split.
    + split.
      * intros _. split; [by eexists | reflexivity].
      * intros _. by exists phrase.
    + intros Hnot. exfalso. apply Hnot. split; [by eexists | reflexivity].
    + split.
      * intros (phrase' & _ & Heq). exfalso.
        apply (f_equal length) in Heq. rewrite !length_app in Heq.
        simpl in Heq. lia.
      * intros [_ Hi0]. contradiction.
    + reflexivity.
  - split; [|reflexivity]. split.
    + intros (phrase & Habs & _). discriminate.
    + intros [[phrase Habs] _]. discriminate.
Qed.

Lemma C9_load_raw_text_witness :
  exists first second,
    Surah.ayahs examples.small_chapter !! 0%nat = Some first
    ∧ Surah.ayahs examples.small_chapter !! 1%nat = Some second
    ∧ Ayah.raw_text first = [0x62A; SPACE; 0x628]
    ∧ Ayah.raw_text second = [0x628].
Proof.
  assert (Quran.__init__ examples.small_environment "uthmani"
          = Ok examples.small_collection) as Hinit by reflexivity.
  assert (Quran._surahs examples.small_collection !! 1%Z
          = Some examples.small_chapter) as Hlook by reflexivity.
  destruct (C9_load_raw_text examples.small_environment "uthmani"
              examples.small_collection 1 examples.small_chapter Hinit Hlook)
    as (root & sura & Hroot & Hin & Hidx & _ & Hverses).
  injection Hroot as <-.
  apply elem_of_cons in Hin as [-> | Hin].
  - destruct (Hverses 0%nat _ eq_refl) as (first & Hfirst & Htext1 & _).
    destruct (Hverses 1%nat _ eq_refl) as (second & Hsecond & Htext2 & _).
    exists first, second. repeat split; assumption.
  - apply list_elem_of_singleton in Hin as ->. discriminate.
Defined.

(** C10: the tokens with conjunction splitting, concatenated, are the
    tokens without it, concatenated; splitting adds, removes and alters no
    character, and never lowers the number of tokens. *)
Theorem C10_split_preserves_characters (text : list N) :
  concat (processing.tokenize text true)
  = concat (processing.tokenize text false)
  ∧ (length (processing.tokenize text false)
     <= length (processing.tokenize text true))%nat.
Proof.
  rewrite tokenize_split_on_wa. split.
  - apply flat_map_concat, split_conjunction_concat.
  - apply flat_map_length_ge. intros token. apply split_conjunction_length.
Qed.

(** ** Further properties of the code *)

(** *** TextNormalizer *)

Section normalizer_more.

Lemma is_diacritic_existsb (c : N) :
  existsb (N.eqb c) processing.ARABIC_DIACRITICS = true ↔ spec.is_diacritic c.
Proof.
  unfold spec.is_diacritic. rewrite existsb_exists, list_elem_of_In.
  split.
  - intros (d & Hd & Heq). apply N.eqb_eq in Heq. by subst.
  - intros Hc. exists c. split; [assumption | apply N.eqb_refl].
Qed.

Lemma filter_Forall_bool {A} (p : A -> bool) (l : list A) :
  Forall (fun x => p x = true) (List.filter p l).
Proof.
  induction l as [|x l IH]; simpl; [constructor|].
  destruct (p x) eqn:Hp; [constructor|]; assumption.
Qed.

Lemma filter_sublist {A} (p : A -> bool) (l : list A) :
  List.filter p l `sublist_of` l.
Proof.
  induction l as [|x l IH]; simpl; [constructor|].
  destruct (p x); by constructor.
Qed.

Lemma filter_fixed {A} (p : A -> bool) (l : list A) :
  List.filter p l = l ↔ Forall (fun x => p x = true) l.
Proof.
  split.
  - intros Heq. rewrite <- Heq. apply filter_Forall_bool.
  - induction 1 as [|x l Hx _ IH]; simpl; [done|]. by rewrite Hx, IH.
Qed.

Lemma not_diacritic_bool (c : N) :
  negb (existsb (N.eqb c) processing.ARABIC_DIACRITICS) = true
  ↔ ¬ spec.is_diacritic c.
Proof.
  rewrite <- is_diacritic_existsb.
  destruct (existsb _ _); simpl; split; intros H; done.
Qed.

Lemma variant_letter_cases (c : N) :
  facts.is_variant_letter c
  ↔ c = 0x623 ∨ c = 0x625 ∨ c = 0x622 ∨ c = 0x629 ∨ c = 0x649.
Proof.
  unfold facts.is_variant_letter, processing.ARABIC_NORMALIZATION_MAP.
  split.
  - intros [v Hv].
    repeat (apply lookup_insert_Some in Hv as [[<- _]|[_ Hv]]; [tauto|]).
    apply lookup_singleton_Some in Hv as [<- _]. tauto.
  - intros Hc. repeat (destruct Hc as [->|Hc]; [by eexists|]).
    subst. by eexists.
Qed.

Lemma normalize_char_not_variant (c : N) :
  ¬ facts.is_variant_letter (processing.normalize_char c).
Proof.
  rewrite variant_letter_cases, normalize_char_cases.
  repeat (case_decide; [lia|]). lia.
Qed.

Lemma normalize_char_fixed (c : N) :
  processing.normalize_char c = c ↔ ¬ facts.is_variant_letter c.
Proof.
  split.
  - intros Heq. rewrite <- Heq. apply normalize_char_not_variant.
  - rewrite variant_letter_cases, normalize_char_cases. intros Hc.
    repeat (case_decide; [lia|]). reflexivity.
Qed.

Lemma normalize_char_diacritic (c : N) :
  existsb (N.eqb (processing.normalize_char c)) processing.ARABIC_DIACRITICS
  = existsb (N.eqb c) processing.ARABIC_DIACRITICS.
Proof.
  rewrite normalize_char_cases.
  repeat (case_decide; [by subst|]). reflexivity.
Qed.

Lemma filter_map_commute {A} (p : A -> bool) (f : A -> A) (l : list A) :
  (forall x, p (f x) = p x) ->
  List.filter p (map f l) = map f (List.filter p l).
Proof.
  intros Hp. induction l as [|x l IH]; simpl; [done|].
  rewrite Hp. destruct (p x); simpl; by rewrite IH.
Qed.

Lemma normalize_remove_commute (s : list N) :
  processing.normalize_arabic (processing.remove_diacritics s)
  = processing.remove_diacritics (processing.normalize_arabic s).
Proof.
  rewrite !normalize_arabic_map, !remove_diacritics_filter.
  symmetry. apply filter_map_commute.
  intros c. by rewrite normalize_char_diacritic.
Qed.

Lemma remove_diacritics_twice (s : list N) :
  processing.remove_diacritics (processing.remove_diacritics s)
  = processing.remove_diacritics s.
Proof. rewrite !remove_diacritics_filter. apply filter_twice. Qed.

Lemma normalize_arabic_twice (s : list N) :
  processing.normalize_arabic (processing.normalize_arabic s)
  = processing.normalize_arabic s.
Proof.
  rewrite !normalize_arabic_map, map_map.
  apply map_ext. intros c. apply normalize_char_idempotent.
Qed.

Lemma remove_diacritics_keeps (s : list N) :
  processing.remove_diacritics s
  = filter (fun c => ¬ spec.is_diacritic c) s.
Proof.
  rewrite remove_diacritics_filter.
  set (p := fun c => negb (existsb (N.eqb c) processing.ARABIC_DIACRITICS)).
  induction s as [|c s IH]; [done|].
  rewrite filter_cons, <- IH.
  change (List.filter p (c :: s))
    with (if p c then c :: List.filter p s else List.filter p s).
  pose proof (not_diacritic_bool c) as Hc. change (p c = true ↔ ¬ spec.is_diacritic c) in Hc.
  destruct (decide (¬ spec.is_diacritic c)) as [Hkeep|Hdrop];
    destruct (p c); try done.
  - by apply Hc in Hkeep.
  - destruct Hdrop. by apply Hc.
Qed.

End normalizer_more.

(** X1: [remove_diacritics] deletes the diacritics and nothing else: its
    result is the text with exactly the characters that are not
    diacritics kept, each as often as it occurs and in the original
    order.  So the result has no diacritic, is a subsequence of the text
    containing every other character of it, and is the text itself
    exactly when the text has no diacritic. *)
Theorem X1_remove_diacritics_result (s : list N) :
  processing.remove_diacritics s
  = filter (fun c => ¬ spec.is_diacritic c) s
  ∧ Forall (fun c => ¬ spec.is_diacritic c) (processing.remove_diacritics s)
  ∧ processing.remove_diacritics s `sublist_of` s
  ∧ (forall c, c ∈ s -> ¬ spec.is_diacritic c ->
               c ∈ processing.remove_diacritics s)
  ∧ (processing.remove_diacritics s = s
     ↔ Forall (fun c => ¬ spec.is_diacritic c) s).
Proof.
  split; [apply remove_diacritics_keeps|].
  rewrite remove_diacritics_filter. repeat split.
  - eapply Forall_impl; [apply filter_Forall_bool|].
    intros c. apply not_diacritic_bool.
  - apply filter_sublist.
  - intros c Hin Hc. apply list_elem_of_In, filter_In.
    split; [by apply list_elem_of_In | by apply not_diacritic_bool].
  - intros Heq. apply filter_fixed in Heq.
    eapply Forall_impl; [exact Heq|]. intros c. apply not_diacritic_bool.
  - intros Hs. apply filter_fixed.
    eapply Forall_impl; [exact Hs|]. intros c. apply not_diacritic_bool.
Qed.

(** X2: [normalize_arabic] leaves no letter form that the table replaces,
    and changes nothing exactly when the text has no such form. *)
Theorem X2_normalize_arabic_result (s : list N) :
  Forall (fun c => ¬ facts.is_variant_letter c) (processing.normalize_arabic s)
  ∧ (processing.normalize_arabic s = s
     ↔ Forall (fun c => ¬ facts.is_variant_letter c) s).
Proof.
  rewrite normalize_arabic_map. split.
  - apply Forall_map, Forall_forall. intros c _.
    apply normalize_char_not_variant.
  - induction s as [|c s IH]; simpl.
    + split; [constructor | done].
    + split.
      * intros [= Hc Hs]. constructor.
        -- by apply normalize_char_fixed.
        -- by apply IH.
      * intros Hall. apply Forall_cons in Hall as [Hc Hs].
        f_equal; [by apply normalize_char_fixed | by apply IH].
Qed.

(** X3: the two normalizers commute, so the order in which
    [get_processed_text] applies them does not change its result. *)
Theorem X3_normalizers_commute (s : list N) :
  processing.normalize_arabic (processing.remove_diacritics s)
  = processing.remove_diacritics (processing.normalize_arabic s).
Proof. apply normalize_remove_commute. Qed.

(** X4: the processed text of a verse has no diacritic when
    [remove_diacritics] is set, whatever [normalize] is; has no replaced
    letter form when [normalize] is set, whatever [remove_diacritics] is;
    is the raw text when neither is set; and processing it again with the
    same options changes nothing. *)
Theorem X4_processed_text (verse : Ayah.t) (normalize remove_diacritics : bool) :
  Forall (fun c => ¬ spec.is_diacritic c)
    (Ayah.get_processed_text verse normalize true)
  ∧ Forall (fun c => ¬ facts.is_variant_letter c)
      (Ayah.get_processed_text verse true remove_diacritics)
  ∧ Ayah.get_processed_text verse false false = Ayah.raw_text verse
  ∧ Ayah.get_processed_text
      (facts.processed_verse verse normalize remove_diacritics)
      normalize remove_diacritics
    = Ayah.get_processed_text verse normalize remove_diacritics.
Proof.
  unfold Ayah.get_processed_text, facts.processed_verse. simpl.
  repeat split.
  - destruct normalize.
    + rewrite normalize_remove_commute, remove_diacritics_filter.
      eapply Forall_impl; [apply filter_Forall_bool|].
      intros c. apply not_diacritic_bool.
    + rewrite remove_diacritics_filter.
      eapply Forall_impl; [apply filter_Forall_bool|].
      intros c. apply not_diacritic_bool.
  - rewrite normalize_arabic_map.
    apply Forall_map, Forall_forall. intros c _.
    apply normalize_char_not_variant.
  - destruct normalize, remove_diacritics; try reflexivity;
      unfold Ayah.get_processed_text.
    + rewrite <- (normalize_remove_commute (processing.remove_diacritics _)).
      by rewrite remove_diacritics_twice, normalize_arabic_twice.
    + apply normalize_arabic_twice.
    + apply remove_diacritics_twice.
Qed.

(** *** Tokenizer *)

Section tokenizer_more.

Lemma scan_word (w rest : list N) :
  Forall (fun c => isspace c = false) w ->
  scan (w ++ rest) = (w ++ (scan rest).1, (scan rest).2).
Proof.
  induction 1 as [|c w Hc _ IH]; simpl.
  - by destruct (scan rest).
  - rewrite Hc, IH. reflexivity.
Qed.

Lemma skip_word (c : N) (w rest : list N) :
  isspace c = false ->
  Forall (fun c => isspace c = false) w ->
  skip (c :: w ++ rest) = (c :: w ++ (scan rest).1) :: (scan rest).2.
Proof. intros Hc Hw. simpl. by rewrite Hc, scan_word. Qed.

(** Splitting what [join] made of well-formed tokens gives them back. *)
Lemma split_join (tokens : list (list N)) :
  Forall spec.well_formed_token tokens ->
  split (join [SPACE] tokens) = tokens.
Proof.
  unfold split. induction 1 as [|t ts [Hne Ht] _ IH]; [done|].
  rewrite join_cons. destruct t as [|c w]; [done|].
  apply Forall_cons in Ht as [Hc Hw].
  rewrite <- app_comm_cons, skip_word by assumption.
  destruct ts as [|t' ts].
  - simpl. by rewrite app_nil_r.
  - remember (join [SPACE] (t' :: ts)) as rest eqn:Hrest.
    change (scan ([SPACE] ++ rest)) with ([] : list N, skip rest).
    simpl fst. simpl snd. by rewrite app_nil_r, IH.
Qed.

Lemma split_conjunction_well_formed (token : list N) :
  spec.well_formed_token token ->
  Forall spec.well_formed_token (spec.split_conjunction token).
Proof.
  intros [Hne Ht]. unfold spec.split_conjunction.
  destruct token as [|c rest]; [done|].
  apply Forall_cons in Ht as [Hc Hrest].
  destruct ((1 <? length (c :: rest))%nat && _) eqn:Hsplit.
  - apply andb_true_iff in Hsplit as [Hlen _].
    apply Nat.ltb_lt in Hlen. simpl in Hlen.
    repeat constructor; try done.
    intros ->. simpl in Hlen. lia.
  - repeat constructor; done.
Qed.

Lemma tokenize_well_formed (text : list N) (split_on_wa : bool) :
  Forall spec.well_formed_token (processing.tokenize text split_on_wa).
Proof.
  destruct split_on_wa.
  - rewrite tokenize_split_on_wa. apply Forall_flat_map.
    eapply Forall_impl; [apply split_tokens_well_formed|].
    apply split_conjunction_well_formed.
  - apply split_tokens_well_formed.
Qed.

Lemma split_conjunction_count (token : list N) :
  length (spec.split_conjunction token)
  = (1 + (if facts.splittable token then 1 else 0))%nat.
Proof.
  unfold spec.split_conjunction, facts.splittable.
  destruct token as [|c [|d rest]]; simpl; [done|done|].
  by destruct (spec.is_conjunction_letter c).
Qed.

Lemma tokenize_count (text : list N) :
  length (processing.tokenize text true)
  = (length (processing.tokenize text false)
     + length (List.filter facts.splittable (processing.tokenize text false)))%nat.
Proof.
  rewrite tokenize_split_on_wa.
  induction (processing.tokenize text false) as [|t ts IH]; simpl; [done|].
  rewrite length_app, split_conjunction_count, IH.
  destruct (facts.splittable t); simpl; lia.
Qed.

Lemma tokenize_nil (text : list N) (split_on_wa : bool) :
  processing.tokenize text split_on_wa = [] ↔ forallb isspace text = true.
Proof.
  assert (processing.tokenize text false = [] ↔ forallb isspace text = true)
    as Hplain.
  { unfold processing.tokenize, split. simpl. split.
    - intros Hnil. destruct (forallb isspace text) eqn:Hs; [done|].
      by apply skip_not_all_space in Hs.
    - apply skip_all_space. }
  destruct split_on_wa; [|exact Hplain].
  rewrite <- Hplain, tokenize_split_on_wa.
  destruct (processing.tokenize text false) as [|t ts]; [done|].
  split; [|done]. simpl. intros Hnil.
  apply app_eq_nil in Hnil as [Hnil _].
  pose proof (split_conjunction_length t) as Hlen.
  rewrite Hnil in Hlen. simpl in Hlen. lia.
Qed.

(** A character-wise map that keeps whitespace whitespace and everything
    else not whitespace maps the words of a text one by one. *)
Lemma split_map (f : N -> N) (s : list N) :
  (forall c, isspace (f c) = isspace c) ->
  skip (map f s) = map (map f) (skip s)
  ∧ scan (map f s) = (map f (scan s).1, map (map f) (scan s).2).
Proof.
  intros Hf. revert s.
  apply (skip_scan_ind
           (fun s ts => skip (map f s) = map (map f) ts)
           (fun s r => scan (map f s) = (map f r.1, map (map f) r.2)));
    simpl; try done.
  - intros c s Hc IH _. by rewrite Hf, Hc.
  - intros c s w ts Hc _ _ IH. by rewrite Hf, Hc, IH.
  - intros c s Hc IH _. by rewrite Hf, Hc, IH.
  - intros c s w ts Hc _ _ IH. by rewrite Hf, Hc, IH.
Qed.

Lemma normalize_char_isspace (c : N) :
  isspace (processing.normalize_char c) = isspace c.
Proof.
  rewrite normalize_char_cases.
  repeat (case_decide; [by subst|]). reflexivity.
Qed.

Lemma normalize_char_conjunction (c : N) :
  spec.is_conjunction_letter (processing.normalize_char c)
  = spec.is_conjunction_letter c.
Proof.
  rewrite normalize_char_cases.
  repeat (case_decide; [by subst|]). reflexivity.
Qed.

Lemma split_conjunction_map (f : N -> N) (token : list N) :
  (forall c, spec.is_conjunction_letter (f c) = spec.is_conjunction_letter c) ->
  spec.split_conjunction (map f token)
  = map (map f) (spec.split_conjunction token).
Proof.
  intros Hf. unfold spec.split_conjunction.
  destruct token as [|c rest]; [done|].
  simpl. rewrite length_map, Hf. by destruct (_ && _).
Qed.

Lemma tokenize_normalize (text : list N) (split_on_wa : bool) :
  processing.tokenize (processing.normalize_arabic text) split_on_wa
  = map processing.normalize_arabic (processing.tokenize text split_on_wa).
Proof.
  assert (forall s, processing.tokenize (processing.normalize_arabic s) false
                    = map processing.normalize_arabic
                        (processing.tokenize s false)) as Hplain.
  { intros s. unfold processing.tokenize, split. simpl.
    rewrite normalize_arabic_map.
    rewrite (proj1 (split_map _ s normalize_char_isspace)).
    apply map_ext. intros t. by rewrite normalize_arabic_map. }
  destruct split_on_wa; [|apply Hplain].
  rewrite !tokenize_split_on_wa, Hplain.
  induction (processing.tokenize text false) as [|t ts IH]; simpl; [done|].
  rewrite map_app, IH. f_equal.
  rewrite normalize_arabic_map.
  rewrite split_conjunction_map by apply normalize_char_conjunction.
  apply map_ext. intros t'. by rewrite normalize_arabic_map.
Qed.

Lemma nonspace_le_letters (text : list N) :
  (length (List.filter (fun c => negb (isspace c)) text)
   <= length (remove_char SPACE text))%nat.
Proof.
  unfold remove_char. induction text as [|c text IH]; simpl; [done|].
  destruct (N.eqb_spec c SPACE) as [->|Hne]; simpl.
  - exact IH.
  - destruct (isspace c); simpl; lia.
Qed.

Lemma nonspace_eq_letters (text : list N) :
  Forall (fun c => isspace c = true -> c = SPACE) text ->
  length (List.filter (fun c => negb (isspace c)) text)
  = length (remove_char SPACE text).
Proof.
  unfold remove_char. induction 1 as [|c text Hc _ IH]; simpl; [done|].
  destruct (N.eqb_spec c SPACE) as [->|Hne]; simpl; [exact IH|].
  destruct (isspace c) eqn:Hs; simpl; [|by rewrite IH].
  by destruct Hne; apply Hc.
Qed.

Lemma tokenize_concat (text : list N) (split_on_wa : bool) :
  concat (processing.tokenize text split_on_wa)
  = List.filter (fun c => negb (isspace c)) text.
Proof.
  destruct split_on_wa.
  - rewrite tokenize_split_on_wa.
    rewrite (flat_map_concat _ _ split_conjunction_concat).
    apply split_concat.
  - apply split_concat.
Qed.

Lemma tokens_le_characters (tokens : list (list N)) :
  Forall spec.well_formed_token tokens ->
  (length tokens <= length (concat tokens))%nat.
Proof.
  induction 1 as [|t ts [Hne _] _ IH]; simpl; [done|].
  rewrite length_app. destruct t; [done|]. simpl. lia.
Qed.

End tokenizer_more.

(** X5: for either setting of [split_on_wa], [tokenize] returns no token
    exactly when the text is empty or all whitespace, and every token it
    returns is non-empty and free of whitespace. *)
Theorem X5_tokenize_tokens (text : list N) (split_on_wa : bool) :
  (processing.tokenize text split_on_wa = [] ↔ forallb isspace text = true)
  ∧ Forall spec.well_formed_token (processing.tokenize text split_on_wa).
Proof. split; [apply tokenize_nil | apply tokenize_well_formed]. Qed.

(** X6: tokenizing the tokens of a text joined with single spaces gives
    the same tokens; more generally tokenizing any non-empty,
    whitespace-free tokens joined with single spaces gives them back. *)
Theorem X6_tokenize_join (tokens : list (list N)) :
  Forall spec.well_formed_token tokens ->
  processing.tokenize (join [SPACE] tokens) false = tokens.
Proof. apply split_join. Qed.

Lemma X6_tokenize_join_witness :
  processing.tokenize (join [SPACE] facts.two_tokens) false = facts.two_tokens.
Proof.
  apply X6_tokenize_join. unfold facts.two_tokens, spec.well_formed_token.
  repeat constructor; discriminate.
Defined.

(** X7: the tokens of a text depend only on the text with its leading
    and trailing whitespace removed and its whitespace runs collapsed:
    tokenizing that gives the same tokens, for either setting of
    [split_on_wa]. *)
Theorem X7_tokenize_collapsed (text : list N) (split_on_wa : bool) :
  processing.tokenize (spec.collapse (spec.strip text)) split_on_wa
  = processing.tokenize text split_on_wa.
Proof.
  assert (processing.tokenize (spec.collapse (spec.strip text)) false
          = processing.tokenize text false) as Hplain.
  { rewrite <- (proj1 (split_join_collapse text)).
    apply split_join, split_tokens_well_formed. }
  destruct split_on_wa; [|exact Hplain].
  by rewrite !tokenize_split_on_wa, Hplain.
Qed.

(** X8: conjunction splitting adds one token for each token that is
    longer than one character and starts with waw or fa, and no other; so
    the word count of a verse with [split_on_wa] is its word count without
    plus the number of such words. *)
Theorem X8_split_count (verse : Ayah.t) (normalize remove_diacritics : bool) :
  (forall text,
     length (processing.tokenize text true)
     = (length (processing.tokenize text false)
        + length (List.filter facts.splittable
                    (processing.tokenize text false)))%nat)
  ∧ exists (words : list (list N)) (plain : Z),
      Ayah.get_words verse (spec.configuration normalize remove_diacritics false)
        = Ok words
      ∧ Ayah.word_count verse
          (spec.configuration normalize remove_diacritics false) = Ok plain
      ∧ Ayah.word_count verse
          (spec.configuration normalize remove_diacritics true)
        = Ok (plain + Z.of_nat (length (List.filter facts.splittable words)))%Z.
Proof.
  split; [apply tokenize_count|].
  eexists _, _. split; [|split].
  - by destruct normalize, remove_diacritics.
  - by destruct normalize, remove_diacritics.
  - rewrite <- Nat2Z.inj_add, <- tokenize_count.
    by destruct normalize, remove_diacritics.
Qed.

(** X9: character normalization maps the tokens of a text one by one: the
    tokens of the normalized text are the normalized tokens.  The word
    count of a verse therefore does not depend on [normalize]. *)
Theorem X9_normalize_tokens (verse : Ayah.t)
    (remove_diacritics split_on_wa : bool) :
  (forall text,
     processing.tokenize (processing.normalize_arabic text) split_on_wa
     = map processing.normalize_arabic
         (processing.tokenize text split_on_wa))
  ∧ Ayah.word_count verse
      (spec.configuration true remove_diacritics split_on_wa)
    = Ayah.word_count verse
        (spec.configuration false remove_diacritics split_on_wa).
Proof.
  split; [intros text; apply tokenize_normalize|].
  transitivity
    (Ok (Z.of_nat (length (processing.tokenize
       (processing.normalize_arabic
          (Ayah.get_processed_text verse false remove_diacritics))
       split_on_wa))) : result Z).
  - by destruct remove_diacritics, split_on_wa.
  - rewrite tokenize_normalize, length_map.
    by destruct remove_diacritics, split_on_wa.
Qed.

(** *** Verse *)

Section verse_more.

Lemma filter_length_le {A} (p : A -> bool) (l : list A) :
  (length (List.filter p l) <= length l)%nat.
Proof.
  induction l as [|x l IH]; simpl; [done|]. destruct (p x); simpl; lia.
Qed.

Lemma processed_length_le (verse : Ayah.t) (normalize remove_diacritics : bool) :
  (length (Ayah.get_processed_text verse normalize remove_diacritics)
   <= length (Ayah.raw_text verse))%nat.
Proof.
  unfold Ayah.get_processed_text.
  destruct normalize, remove_diacritics;
    rewrite ?normalize_arabic_length, ?remove_diacritics_filter;
    try apply filter_length_le; done.
Qed.

Lemma bind_kwargs_ok (kw : gmap string bool) :
  kw !! "self" = None -> bind_kwargs kw = Ok kw.
Proof. intros Hself. unfold bind_kwargs. by rewrite Hself. Qed.

Lemma bind_kwargs_self (kw : gmap string bool) :
  is_Some (kw !! "self") -> bind_kwargs kw = Raise TypeError.
Proof. intros [b Hself]. unfold bind_kwargs. by rewrite Hself. Qed.

Lemma get_words_text (verse : Ayah.t)
    (normalize remove_diacritics split_on_wa : bool) :
  Ayah.get_words verse
    (spec.configuration normalize remove_diacritics split_on_wa)
  = Ok (processing.tokenize
          (Ayah.get_processed_text verse normalize remove_diacritics)
          split_on_wa).
Proof. by destruct normalize, remove_diacritics, split_on_wa. Qed.

Lemma word_count_text (verse : Ayah.t)
    (normalize remove_diacritics split_on_wa : bool) :
  Ayah.word_count verse
    (spec.configuration normalize remove_diacritics split_on_wa)
  = Ok (Z.of_nat (length (processing.tokenize
          (Ayah.get_processed_text verse normalize remove_diacritics)
          split_on_wa))).
Proof. by destruct normalize, remove_diacritics, split_on_wa. Qed.

Lemma letters_normalize (verse : Ayah.t) (remove_diacritics : bool) :
  length (remove_char SPACE
            (Ayah.get_processed_text verse true remove_diacritics))
  = length (remove_char SPACE
              (Ayah.get_processed_text verse false remove_diacritics)).
Proof.
  unfold Ayah.get_processed_text.
  destruct remove_diacritics; apply remove_char_normalize_length.
Qed.

Lemma letters_remove_diacritics (verse : Ayah.t) (normalize : bool) :
  (length (remove_char SPACE (Ayah.get_processed_text verse normalize true))
   <= length (remove_char SPACE
                (Ayah.get_processed_text verse normalize false)))%nat.
Proof.
  destruct normalize.
  - rewrite !letters_normalize. unfold Ayah.get_processed_text.
    rewrite remove_diacritics_filter. apply filter_filter_length.
  - unfold Ayah.get_processed_text.
    rewrite remove_diacritics_filter. apply filter_filter_length.
Qed.

Lemma words_le_letters (text : list N) (split_on_wa : bool) :
  (length (processing.tokenize text split_on_wa)
   <= length (concat (processing.tokenize text split_on_wa))
   <= length (remove_char SPACE text))%nat.
Proof.
  split.
  - apply tokens_le_characters, tokenize_well_formed.
  - rewrite tokenize_concat. apply nonspace_le_letters.
Qed.

Lemma text_keywords_dom (kw : gmap string bool) :
  (forall k, is_Some (kw !! k) -> k = "normalize" ∨ k = "remove_diacritics")
  ↔ dom kw ⊆ ({["normalize"; "remove_diacritics"]} : gset string).
Proof.
  split.
  - intros Hkeys k Hk. apply elem_of_dom in Hk.
    rewrite elem_of_union, !elem_of_singleton. by apply Hkeys.
  - intros Hdom k Hk. apply elem_of_dom in Hk. apply Hdom in Hk.
    by rewrite elem_of_union, !elem_of_singleton in Hk.
Qed.

End verse_more.

(** X10: a verse never has more words than its words have characters,
    and these are never more than its letter count, which is never more
    than the length of its raw text; the characters of the words are
    exactly the letters when the processed text has no whitespace other
    than the space. *)
Theorem X10_words_and_letters (verse : Ayah.t)
    (normalize remove_diacritics split_on_wa : bool) :
  exists (words : list (list N)) (word_count letter_count : Z),
    Ayah.get_words verse
      (spec.configuration normalize remove_diacritics split_on_wa) = Ok words
    ∧ Ayah.word_count verse
        (spec.configuration normalize remove_diacritics split_on_wa)
      = Ok word_count
    ∧ Ayah.letter_count verse
        (spec.text_configuration normalize remove_diacritics)
      = Ok letter_count
    ∧ (0 <= word_count <= Z.of_nat (length (concat words)))%Z
    ∧ (Z.of_nat (length (concat words)) <= letter_count
       <= Z.of_nat (length (Ayah.raw_text verse)))%Z
    ∧ (Forall (fun c => isspace c = true -> c = SPACE)
         (Ayah.get_processed_text verse normalize remove_diacritics) ->
       Z.of_nat (length (concat words)) = letter_count).
Proof.
  eexists _, _, _.
  rewrite get_words_text, word_count_text, letter_count_text.
  split; [reflexivity|]. split; [reflexivity|]. split; [reflexivity|].
  pose proof (words_le_letters
                (Ayah.get_processed_text verse normalize remove_diacritics)
                split_on_wa) as [Hwords Hchars].
  pose proof (processed_length_le verse normalize remove_diacritics) as Hraw.
  pose proof (filter_length_le (fun d => negb (d =? SPACE))
                (Ayah.get_processed_text verse normalize remove_diacritics))
    as Hletters.
  unfold remove_char in *.
  split; [lia|]. split; [lia|].
  intros Hspaces. f_equal. rewrite tokenize_concat.
  by apply nonspace_eq_letters.
Qed.

(** X11: the letter count of a verse does not depend on [normalize], and
    with [remove_diacritics] it is at most what it is without, whatever
    [normalize] is. *)
Theorem X11_letter_count_options (verse : Ayah.t)
    (normalize remove_diacritics : bool) :
  Ayah.letter_count verse (spec.text_configuration true remove_diacritics)
  = Ayah.letter_count verse (spec.text_configuration false remove_diacritics)
  ∧ exists without_marks with_marks : Z,
      Ayah.letter_count verse (spec.text_configuration normalize true)
        = Ok without_marks
      ∧ Ayah.letter_count verse (spec.text_configuration normalize false)
        = Ok with_marks
      ∧ (without_marks <= with_marks)%Z.
Proof.
  split.
  - by rewrite !letter_count_text, letters_normalize.
  - eexists _, _. rewrite !letter_count_text.
    split; [reflexivity|]. split; [reflexivity|].
    apply Nat2Z.inj_le, letters_remove_diacritics.
Qed.

(** X12: how the operations of a verse read their keyword arguments.  A
    keyword named [self] collides with the receiver: all three operations
    raise [TypeError].  Without it, [get_words] and [word_count] read the
    three options with their defaults (true, true, false) and ignore
    every other key.  [letter_count] takes the two text options with
    their defaults, and raises [TypeError] as soon as the dictionary has
    any other key. *)
Theorem X12_keyword_arguments (verse : Ayah.t) (kw : gmap string bool) :
  let normalize := default true (kw !! "normalize") in
  let remove_diacritics := default true (kw !! "remove_diacritics") in
  let split_on_wa := default false (kw !! "split_on_wa") in
  let text := Ayah.get_processed_text verse normalize remove_diacritics in
  let words := processing.tokenize text split_on_wa in
  (is_Some (kw !! "self") ->
   Ayah.get_words verse kw = Raise TypeError
   ∧ Ayah.word_count verse kw = Raise TypeError
   ∧ Ayah.letter_count verse kw = Raise TypeError)
  ∧ (kw !! "self" = None ->
     Ayah.get_words verse kw = Ok words
     ∧ Ayah.get_words verse kw
       = Ayah.get_words verse
           (spec.configuration normalize remove_diacritics split_on_wa)
     ∧ Ayah.word_count verse kw = Ok (Z.of_nat (length words))
     ∧ Ayah.word_count verse kw
       = Ayah.word_count verse
           (spec.configuration normalize remove_diacritics split_on_wa))
  ∧ ((forall k, is_Some (kw !! k) ->
                k = "normalize" ∨ k = "remove_diacritics") ->
     Ayah.letter_count verse kw
     = Ok (Z.of_nat (length (remove_char SPACE text)))
     ∧ Ayah.letter_count verse kw
       = Ayah.letter_count verse
           (spec.text_configuration normalize remove_diacritics))
  ∧ (forall k, is_Some (kw !! k) ->
               k ≠ "normalize" -> k ≠ "remove_diacritics" ->
               Ayah.letter_count verse kw = Raise TypeError).
Proof.
  intros normalize remove_diacritics split_on_wa text words.
  split; [|split; [|split]].
  - intros Hself.
    unfold Ayah.get_words, Ayah.word_count, Ayah.letter_count.
    by rewrite (bind_kwargs_self kw Hself).
  - intros Hself.
    assert (Ayah.get_words verse kw = Ok words) as Hwords.
    { unfold Ayah.get_words. by rewrite (bind_kwargs_ok kw Hself). }
    assert (Ayah.word_count verse kw = Ok (Z.of_nat (length words)))
      as Hcount.
    { unfold Ayah.word_count.
      rewrite (bind_kwargs_ok kw Hself). simpl. by rewrite Hwords. }
    by rewrite get_words_text, word_count_text.
  - intros Hkeys.
    assert (kw !! "self" = None) as Hself.
    { destruct (kw !! "self") as [b|] eqn:Hb; [|done].
      by destruct (Hkeys "self" (mk_is_Some _ _ Hb)). }
    apply text_keywords_dom in Hkeys.
    rewrite letter_count_text.
    unfold Ayah.letter_count.
    rewrite (bind_kwargs_ok kw Hself). simpl.
    unfold Ayah.call_get_processed_text. by destruct (decide _).
  - intros k Hk Hn Hd. unfold Ayah.letter_count, bind_kwargs.
    destruct (kw !! "self"); [done|]. simpl.
    unfold Ayah.call_get_processed_text.
    destruct (decide _) as [Hdom|]; [|done].
    destruct (proj2 (text_keywords_dom kw) Hdom k Hk); done.
Qed.

(** *** Chapter *)

Section chapter_more.

Lemma get_ayah_cases (chapter : Surah.t) (v : Z) :
  ((v < 1 ∨ Z.of_nat (length (Surah.ayahs chapter)) < v)%Z
   ∧ Surah.get_ayah chapter v
     = Raise (InvalidAyahNumberError (Surah.number chapter) v))
  ∨ ((1 <= v <= Z.of_nat (length (Surah.ayahs chapter)))%Z
     ∧ exists verse, Surah.get_ayah chapter v = Ok verse
         ∧ Surah.ayahs chapter !! Z.to_nat (v - 1) = Some verse).
Proof.
  destruct (decide (1 <= v <= Z.of_nat (length (Surah.ayahs chapter)))%Z)
    as [Hin|Hout].
  - right. split; [assumption | by apply get_ayah_in_range].
  - left. split; [lia | apply get_ayah_out_of_range; lia].
Qed.

Lemma sum_results_ok (f : Ayah.t -> result Z) (g : Ayah.t -> Z)
    (l : list Ayah.t) :
  (forall verse, f verse = Ok (g verse)) ->
  Surah.sum_results f l = Ok (foldr (fun verse total => g verse + total)%Z 0%Z l).
Proof.
  intros Hf. induction l as [|verse l IH]; simpl; [done|].
  by rewrite Hf, IH.
Qed.

Lemma sum_results_app (f : Ayah.t -> result Z) (l1 l2 : list Ayah.t) :
  Surah.sum_results f (l1 ++ l2)
  = a ← Surah.sum_results f l1; b ← Surah.sum_results f l2; Ok (a + b)%Z.
Proof.
  induction l1 as [|verse l1 IH]; simpl.
  - by destruct (Surah.sum_results f l2).
  - rewrite IH. destruct (f verse) as [n|e]; [|done]. simpl.
    destruct (Surah.sum_results f l1) as [a|e]; [|done]. simpl.
    destruct (Surah.sum_results f l2) as [b|e]; [|done]. simpl.
    by rewrite Z.add_assoc.
Qed.

Lemma foldr_sum_le (g h : Ayah.t -> Z) (l : list Ayah.t) :
  (forall verse, g verse <= h verse)%Z ->
  (foldr (fun verse total => g verse + total) 0 l
   <= foldr (fun verse total => h verse + total) 0 l)%Z.
Proof.
  intros Hgh. induction l as [|verse l IH]; simpl; [done|].
  specialize (Hgh verse). lia.
Qed.

Lemma foldr_sum_ext (g h : Ayah.t -> Z) (l : list Ayah.t) :
  (forall verse, g verse = h verse) ->
  foldr (fun verse total => g verse + total)%Z 0%Z l
  = foldr (fun verse total => h verse + total)%Z 0%Z l.
Proof.
  intros Hgh. induction l as [|verse l IH]; simpl; [done|].
  by rewrite Hgh, IH.
Qed.

Lemma foldr_sum_nonneg (g : Ayah.t -> Z) (l : list Ayah.t) :
  (forall verse, 0 <= g verse)%Z ->
  (0 <= foldr (fun verse total => g verse + total) 0 l)%Z.
Proof.
  intros Hg. induction l as [|verse l IH]; simpl; [done|].
  specialize (Hg verse). lia.
Qed.

Lemma surah_word_count_text (chapter : Surah.t)
    (normalize remove_diacritics split_on_wa : bool) :
  Surah.word_count chapter
    (spec.configuration normalize remove_diacritics split_on_wa)
  = Ok (foldr (fun verse total =>
                 Z.of_nat (length (processing.tokenize
                   (Ayah.get_processed_text verse normalize remove_diacritics)
                   split_on_wa)) + total)%Z 0%Z (Surah.ayahs chapter)).
Proof.
  unfold Surah.word_count. rewrite bind_kwargs_ok.
  - apply (sum_results_ok _ (fun verse => Z.of_nat (length (processing.tokenize
             (Ayah.get_processed_text verse normalize remove_diacritics)
             split_on_wa)))).
    intros verse. apply word_count_text.
  - by destruct normalize, remove_diacritics, split_on_wa.
Qed.

Lemma surah_letter_count_text (chapter : Surah.t)
    (normalize remove_diacritics : bool) :
  Surah.letter_count chapter
    (spec.text_configuration normalize remove_diacritics)
  = Ok (foldr (fun verse total =>
                 Z.of_nat (length (remove_char SPACE
                   (Ayah.get_processed_text verse normalize remove_diacritics)))
                 + total)%Z 0%Z (Surah.ayahs chapter)).
Proof.
  unfold Surah.letter_count. rewrite bind_kwargs_ok.
  - apply (sum_results_ok _ (fun verse => Z.of_nat (length (remove_char SPACE
             (Ayah.get_processed_text verse normalize remove_diacritics))))).
    intros verse. apply letter_count_text.
  - by destruct normalize, remove_diacritics.
Qed.

Lemma surah_counts_self (chapter : Surah.t) (kw : gmap string bool) :
  is_Some (kw !! "self") ->
  Surah.word_count chapter kw = Raise TypeError
  ∧ Surah.letter_count chapter kw = Raise TypeError.
Proof.
  intros Hself. unfold Surah.word_count, Surah.letter_count.
  by rewrite (bind_kwargs_self kw Hself).
Qed.

Lemma surah_word_count_sum (chapter : Surah.t) (kw : gmap string bool) :
  kw !! "self" = None ->
  Surah.word_count chapter kw
  = Surah.sum_results (fun ayah => Ayah.word_count ayah kw)
      (Surah.ayahs chapter).
Proof.
  intros Hself. unfold Surah.word_count. by rewrite (bind_kwargs_ok kw Hself).
Qed.

Lemma surah_letter_count_sum (chapter : Surah.t) (kw : gmap string bool) :
  kw !! "self" = None ->
  Surah.letter_count chapter kw
  = Surah.sum_results (fun ayah => Ayah.letter_count ayah kw)
      (Surah.ayahs chapter).
Proof.
  intros Hself. unfold Surah.letter_count. by rewrite (bind_kwargs_ok kw Hself).
Qed.

End chapter_more.

(** X13: without any assumption on the chapter, [get_ayah v] returns a
    verse exactly when [1 <= v <= count], and then the verse at position
    [v - 1] of the list; in every other case, as for 0 and for negative
    numbers, it raises [InvalidAyahNumberError] with the chapter number
    and [v]: it never indexes from the end and never raises
    [IndexError]. *)
Theorem X13_get_ayah_outcomes (chapter : Surah.t) (v : Z) :
  (forall verse,
     Surah.get_ayah chapter v = Ok verse
     ↔ (1 <= v <= Z.of_nat (length (Surah.ayahs chapter)))%Z
       ∧ Surah.ayahs chapter !! Z.to_nat (v - 1) = Some verse)
  ∧ (forall e,
       Surah.get_ayah chapter v = Raise e ->
       e = InvalidAyahNumberError (Surah.number chapter) v
       ∧ (v < 1 ∨ Z.of_nat (length (Surah.ayahs chapter)) < v)%Z).
Proof.
  destruct (get_ayah_cases chapter v)
    as [[Hout Hget] | [Hin (found & Hget & Hlook)]]; rewrite Hget; split.
  - intros verse. split; [discriminate | lia].
  - intros e [= <-]. by split.
  - intros verse. split.
    + intros [= <-]. by split.
    + intros [_ Hverse]. congruence.
  - intros e. discriminate.
Qed.

(** X14: the word count and the letter count of a chapter are returned
    for every combination of the options; the word count is not negative
    and is at most the letter count. *)
Theorem X14_chapter_counts (chapter : Surah.t)
    (normalize remove_diacritics split_on_wa : bool) :
  exists word_count letter_count : Z,
    Surah.word_count chapter
      (spec.configuration normalize remove_diacritics split_on_wa)
      = Ok word_count
    ∧ Surah.letter_count chapter
        (spec.text_configuration normalize remove_diacritics)
      = Ok letter_count
    ∧ (0 <= word_count <= letter_count)%Z.
Proof.
  eexists _, _. rewrite surah_word_count_text, surah_letter_count_text.
  split; [reflexivity|]. split; [reflexivity|]. split.
  - apply foldr_sum_nonneg. intros verse. lia.
  - apply foldr_sum_le. intros verse.
    pose proof (words_le_letters
                  (Ayah.get_processed_text verse normalize remove_diacritics)
                  split_on_wa). lia.
Qed.

(** X15: the counts of a chapter are sums over its verses.  For a
    dictionary of options without the key [self], a chapter without
    verses counts 0; with that key the call raises [TypeError] whatever
    the verses are.  For every dictionary, the count of a chapter whose
    verses are two lists one after the other is the sum of the counts of
    the two parts; an exception raised in the first part is the one
    raised. *)
Theorem X15_chapter_counts_add (number : Z) (name : list N)
    (first second : list Ayah.t) (kw : gmap string bool) :
  (kw !! "self" = None ->
   Surah.word_count (Surah.mk number name []) kw = Ok 0%Z
   ∧ Surah.letter_count (Surah.mk number name []) kw = Ok 0%Z)
  ∧ (is_Some (kw !! "self") ->
     Surah.word_count (Surah.mk number name first) kw = Raise TypeError
     ∧ Surah.letter_count (Surah.mk number name first) kw = Raise TypeError)
  ∧ Surah.word_count (Surah.mk number name (first ++ second)) kw
    = (a ← Surah.word_count (Surah.mk number name first) kw;
       b ← Surah.word_count (Surah.mk number name second) kw;
       Ok (a + b)%Z)
  ∧ Surah.letter_count (Surah.mk number name (first ++ second)) kw
    = (a ← Surah.letter_count (Surah.mk number name first) kw;
       b ← Surah.letter_count (Surah.mk number name second) kw;
       Ok (a + b)%Z).
Proof.
  split; [|split].
  - intros Hself.
    by rewrite surah_word_count_sum, surah_letter_count_sum.
  - apply surah_counts_self.
  - destruct (kw !! "self") as [b|] eqn:Hself.
    + assert (is_Some (kw !! "self")) as Hsome by (by exists b).
      split.
      * by rewrite !(proj1 (surah_counts_self _ kw Hsome)).
      * by rewrite !(proj2 (surah_counts_self _ kw Hsome)).
    + rewrite !surah_word_count_sum, !surah_letter_count_sum by done.
      split; apply sum_results_app.
Qed.

(** X16: for a chapter as for a verse, the word count with
    [split_on_wa] is at least the word count without, neither count
    depends on [normalize], and the letter count with [remove_diacritics]
    is at most the letter count without. *)
Theorem X16_chapter_options (chapter : Surah.t)
    (normalize remove_diacritics split_on_wa : bool) :
  (exists plain split_count : Z,
     Surah.word_count chapter
       (spec.configuration normalize remove_diacritics false) = Ok plain
     ∧ Surah.word_count chapter
         (spec.configuration normalize remove_diacritics true) = Ok split_count
     ∧ (plain <= split_count)%Z)
  ∧ Surah.word_count chapter
      (spec.configuration true remove_diacritics split_on_wa)
    = Surah.word_count chapter
        (spec.configuration false remove_diacritics split_on_wa)
  ∧ Surah.letter_count chapter (spec.text_configuration true remove_diacritics)
    = Surah.letter_count chapter
        (spec.text_configuration false remove_diacritics)
  ∧ exists without_marks with_marks : Z,
      Surah.letter_count chapter (spec.text_configuration normalize true)
        = Ok without_marks
      ∧ Surah.letter_count chapter (spec.text_configuration normalize false)
        = Ok with_marks
      ∧ (without_marks <= with_marks)%Z.
Proof.
  split; [|split; [|split]].
  - eexists _, _. rewrite !surah_word_count_text.
    split; [reflexivity|]. split; [reflexivity|].
    apply foldr_sum_le. intros verse. rewrite tokenize_count. lia.
  - rewrite !surah_word_count_text. f_equal.
    apply foldr_sum_ext. intros verse.
    change (Ayah.get_processed_text verse true remove_diacritics)
      with (processing.normalize_arabic
              (Ayah.get_processed_text verse false remove_diacritics)).
    by rewrite tokenize_normalize, length_map.
  - rewrite !surah_letter_count_text. f_equal.
    apply foldr_sum_ext. intros verse. by rewrite letters_normalize.
  - eexists _, _. rewrite !surah_letter_count_text.
    split; [reflexivity|]. split; [reflexivity|].
    apply foldr_sum_le. intros verse.
    apply Nat2Z.inj_le, letters_remove_diacritics.
Qed.


(** *** TextCollection *)

Section collection_more.

Lemma load_loop_dom (root : list sura_element) (surahs : gmap Z Surah.t) :
  dom (fold_left Quran.load_surah root surahs)
  = dom surahs ∪ list_to_set (sura_index <$> root).
Proof.
  revert surahs. induction root as [|sura root IH]; intros surahs; simpl.
  - by rewrite union_empty_r_L.
  - rewrite IH. unfold Quran.load_surah. rewrite dom_insert_L.
    rewrite (comm_L (∪) {[sura_index sura]} (dom surahs)).
    by rewrite <- (assoc_L (∪)).
Qed.

Lemma load_loop_other (root : list sura_element) (surahs : gmap Z Surah.t)
    (k : Z) :
  Forall (fun sura => sura_index sura ≠ k) root ->
  fold_left Quran.load_surah root surahs !! k = surahs !! k.
Proof.
  intros Hroot. revert surahs.
  induction Hroot as [|sura root Hne _ IH]; intros surahs; simpl; [done|].
  rewrite IH. unfold Quran.load_surah. by rewrite lookup_insert_ne.
Qed.

Lemma load_loop_last (before after : list sura_element) (sura : sura_element)
    (surahs : gmap Z Surah.t) :
  Forall (fun later => sura_index later ≠ sura_index sura) after ->
  fold_left Quran.load_surah (before ++ sura :: after) surahs
    !! sura_index sura
  = Some (facts.built_chapter sura).
Proof.
  intros Hafter. rewrite fold_left_app. simpl.
  rewrite load_loop_other by assumption.
  unfold Quran.load_surah at 1. by rewrite lookup_insert_eq.
Qed.

Lemma init_valid (env : environment) (script : string)
    (root : list sura_element) :
  script = "uthmani" ∨ script = "simple" ->
  data_files env !! Quran.file_name script = Some root ->
  Quran.__init__ env script
  = Ok (Quran.mk script (fold_left Quran.load_surah root ∅)).
Proof.
  intros Hscript Hroot. unfold Quran.__init__, Quran._load_data.
  rewrite Hroot. by destruct Hscript as [-> | ->].
Qed.

Lemma init_script (env : environment) (script : string) (q : Quran.t) :
  Quran.__init__ env script = Ok q ->
  (script = "uthmani" ∨ script = "simple") ∧ Quran.script q = script.
Proof.
  unfold Quran.__init__.
  destruct (bool_decide _) eqn:Hvalid; [|discriminate].
  apply bool_decide_eq_true in Hvalid.
  destruct (Quran._load_data env script) as [surahs|]; [|discriminate].
  simpl. intros [= <-]. split; [|reflexivity].
  apply elem_of_cons in Hvalid as [-> | Hvalid]; [by left|].
  apply list_elem_of_singleton in Hvalid as ->. by right.
Qed.

Lemma built_chapter_verses (sura : sura_element) :
  Forall (fun verse => Ayah.surah_number verse = sura_index sura)
    (Surah.ayahs (facts.built_chapter sura)).
Proof.
  apply Forall_lookup. intros i verse. simpl.
  rewrite list_lookup_imap.
  destruct (sura_ayas sura !! i); simpl; [|discriminate].
  by intros [= <-].
Qed.

Lemma built_chapter_numbers (sura : sura_element) :
  Ayah.number <$> Surah.ayahs (facts.built_chapter sura)
  = aya_index <$> sura_ayas sura.
Proof.
  apply list_eq. intros i. simpl.
  rewrite !list_lookup_fmap, list_lookup_imap.
  by destruct (sura_ayas sura !! i).
Qed.

Lemma loaded_chapter_built (env : environment) (script : string) (q : Quran.t)
    (k : Z) (chapter : Surah.t) :
  Quran.__init__ env script = Ok q ->
  Quran._surahs q !! k = Some chapter ->
  exists root sura,
    data_files env !! Quran.file_name script = Some root
    ∧ sura ∈ root ∧ sura_index sura = k
    ∧ chapter = facts.built_chapter sura.
Proof.
  intros Hinit Hk.
  destruct (loaded_chapter env script q k chapter Hinit Hk)
    as (root & sura & Hroot & Hin & <- & ->).
  by exists root, sura.
Qed.

End collection_more.


(** X19: in a constructed collection the script is the one requested, the
    keys of the chapters mapping are exactly the indexes of the chapter
    elements of the file, and every chapter stored under a key was built
    from a chapter element with that index: its number is the key and
    each of its verses carries the key as its chapter number. *)
Theorem X19_loaded_collection (env : environment) (script : string)
    (q : Quran.t) :
  Quran.__init__ env script = Ok q ->
  exists root,
    data_files env !! Quran.file_name script = Some root
    ∧ Quran.script q = script
    ∧ dom (Quran._surahs q) = list_to_set (sura_index <$> root)
    ∧ forall k chapter,
        Quran._surahs q !! k = Some chapter ->
        Surah.number chapter = k
        ∧ Forall (fun verse => Ayah.surah_number verse = k)
            (Surah.ayahs chapter)
        ∧ exists sura, sura ∈ root ∧ chapter = facts.built_chapter sura.
Proof.
  intros Hinit.
  destruct (init_inversion env script q Hinit) as (root & Hroot & Hsurahs).
  exists root. split; [assumption|].
  split; [by apply (init_script env)|]. split.
  - by rewrite Hsurahs, load_loop_dom, dom_empty_L, union_empty_l_L.
  - intros k chapter Hk.
    destruct (loaded_chapter_built env script q k chapter Hinit Hk)
      as (root' & sura & Hroot' & Hin & <- & ->).
    rewrite Hroot in Hroot'. injection Hroot' as <-.
    split; [reflexivity|]. split; [apply built_chapter_verses|].
    by exists sura.
Qed.

Lemma X19_loaded_collection_witness :
  Quran.script facts.duplicate_collection = "simple"
  ∧ dom (Quran._surahs facts.duplicate_collection) = {[ 1%Z ]}.
Proof.
  assert (Quran.__init__ facts.duplicate_environment "simple"
          = Ok facts.duplicate_collection) as Hinit by reflexivity.
  destruct (X19_loaded_collection facts.duplicate_environment "simple"
              facts.duplicate_collection Hinit)
    as (root & Hroot & Hscript & Hdom & _).
  split; [exact Hscript|].
  injection Hroot as <-. rewrite Hdom. vm_compute. reflexivity.
Defined.

(** X20: when several chapter elements of the file have the same index,
    the last of them is the chapter stored: a chapter element after which
    no element has its index is the one [get_surah] returns for its
    index. *)
Theorem X20_last_chapter_element (env : environment) (script : string)
    (before after : list sura_element) (sura : sura_element) :
  script = "uthmani" ∨ script = "simple" ->
  data_files env !! Quran.file_name script = Some (before ++ sura :: after) ->
  Forall (fun later => sura_index later ≠ sura_index sura) after ->
  exists q,
    Quran.__init__ env script = Ok q
    ∧ Quran.get_surah q (sura_index sura) = Ok (facts.built_chapter sura).
Proof.
  intros Hscript Hroot Hafter. eexists. split.
  - by apply init_valid.
  - unfold Quran.get_surah. simpl. by rewrite load_loop_last.
Qed.

Lemma X20_last_chapter_element_witness :
  exists q chapter,
    Quran.__init__ facts.duplicate_environment "simple" = Ok q
    ∧ Quran.get_surah q 1 = Ok chapter
    ∧ Surah.name chapter = [0x42]
    ∧ length (Surah.ayahs chapter) = 2%nat.
Proof.
  destruct (X20_last_chapter_element facts.duplicate_environment "simple"
              [ {| sura_index := 1; sura_name := [0x41];
                   sura_ayas :=
                     [ {| aya_index := 1; aya_text := [0x628];
                          aya_bismillah := None |} ] |} ]
              []
              {| sura_index := 1; sura_name := [0x42];
                 sura_ayas :=
                   [ {| aya_index := 7; aya_text := [0x62A];
                        aya_bismillah := None |};
                     {| aya_index := 8; aya_text := [0x62B];
                        aya_bismillah := None |} ] |})
    as (q & Hinit & Hget).
  - by right.
  - reflexivity.
  - constructor.
  - exists q. eexists. split; [exact Hinit|]. split; [exact Hget|].
    split; reflexivity.
Defined.

(** X21: the number of a loaded verse is the index attribute of its verse
    element, not its position: the numbers of the verses of a chapter are
    the index attributes in document order, so the chapter is numbered
    1, 2, ... exactly when the index attributes are. *)
Theorem X21_verse_numbers (sura : sura_element) :
  Ayah.number <$> Surah.ayahs (facts.built_chapter sura)
  = aya_index <$> sura_ayas sura
  ∧ length (Surah.ayahs (facts.built_chapter sura)) = length (sura_ayas sura)
  ∧ (spec.verses_numbered (facts.built_chapter sura)
     ↔ aya_index <$> sura_ayas sura
       = seqZ 1 (Z.of_nat (length (sura_ayas sura)))).
Proof.
  assert (length (Surah.ayahs (facts.built_chapter sura))
          = length (sura_ayas sura)) as Hlen by apply length_imap.
  split; [apply built_chapter_numbers|]. split; [exact Hlen|].
  unfold spec.verses_numbered. by rewrite built_chapter_numbers, Hlen.
Qed.

(** X22: in a constructed collection, [get_ayah] for a chapter number and
    a verse number has exactly one of three outcomes.  When no chapter is
    stored under the chapter number it raises [InvalidSurahNumberError]
    with that number, whatever the verse number is.  When the chapter is
    there and the verse number is below 1 or above the number of its
    verses it raises [InvalidAyahNumberError] with the requested chapter
    and verse numbers.  When the chapter is there and the verse number is
    between 1 and the number of its verses it returns the verse at that
    position less one, which carries the requested chapter number. *)
Theorem X22_get_ayah_outcomes (env : environment) (script : string)
    (q : Quran.t) (surah_number ayah_number : Z) :
  Quran.__init__ env script = Ok q ->
  (Quran._surahs q !! surah_number = None
   ∧ Quran.get_ayah q surah_number ayah_number
     = Raise (InvalidSurahNumberError surah_number))
  ∨ (exists chapter,
       Quran._surahs q !! surah_number = Some chapter
       ∧ (ayah_number < 1
          ∨ Z.of_nat (length (Surah.ayahs chapter)) < ayah_number)%Z
       ∧ Quran.get_ayah q surah_number ayah_number
         = Raise (InvalidAyahNumberError surah_number ayah_number))
  ∨ (exists chapter verse,
       Quran._surahs q !! surah_number = Some chapter
       ∧ (1 <= ayah_number <= Z.of_nat (length (Surah.ayahs chapter)))%Z
       ∧ Surah.ayahs chapter !! Z.to_nat (ayah_number - 1) = Some verse
       ∧ Quran.get_ayah q surah_number ayah_number = Ok verse
       ∧ Ayah.surah_number verse = surah_number).
Proof.
  intros Hinit. unfold Quran.get_ayah, Quran.get_surah.
  destruct (Quran._surahs q !! surah_number) as [chapter|] eqn:Hk.
  - right.
    destruct (loaded_chapter_built env script q _ chapter Hinit Hk)
      as (root & sura & _ & _ & Hidx & ->).
    simpl.
    destruct (get_ayah_cases (facts.built_chapter sura) ayah_number)
      as [[Hout Hget] | [Hin (verse & Hget & Hlook)]].
    + left. eexists. split; [reflexivity|]. split; [exact Hout|].
      rewrite Hget. simpl. by rewrite Hidx.
    + right. exists (facts.built_chapter sura), verse.
      split; [reflexivity|]. split; [exact Hin|].
      split; [exact Hlook|]. split; [exact Hget|].
      rewrite <- Hidx.
      exact (proj1 (Forall_lookup _ _) (built_chapter_verses sura) _ _ Hlook).
  - left. by split.
Qed.

Lemma X22_get_ayah_outcomes_witness :
  Quran.get_ayah facts.duplicate_collection 2 1
    = Raise (InvalidSurahNumberError 2)
  ∧ Quran.get_ayah facts.duplicate_collection 1 3
    = Raise (InvalidAyahNumberError 1 3)
  ∧ exists verse, Quran.get_ayah facts.duplicate_collection 1 2 = Ok verse
                  ∧ Ayah.surah_number verse = 1%Z.
Proof.
  assert (Quran.__init__ facts.duplicate_environment "simple"
          = Ok facts.duplicate_collection) as Hinit by reflexivity.
  split; [|split].
  - destruct (X22_get_ayah_outcomes facts.duplicate_environment "simple"
                facts.duplicate_collection 2 1 Hinit)
      as [[_ Hget] | [(chapter & Hk & _) | (chapter & verse & Hk & _)]];
      [exact Hget | discriminate Hk | discriminate Hk].
  - reflexivity.
  - destruct (X22_get_ayah_outcomes facts.duplicate_environment "simple"
                facts.duplicate_collection 1 2 Hinit)
      as [[Hk _] | [(chapter & Hk & Hout & _)
                   | (chapter & verse & _ & _ & _ & Hget & Hnum)]].
    + discriminate Hk.
    + vm_compute in Hk. injection Hk as <-. simpl in Hout. lia.
    + by exists verse.
Defined.

(** *** Diacritic removal and words *)

Section diacritics_and_words.

Lemma kept_cons (p : N -> bool) (token : list N) (tokens : list (list N)) :
  facts.kept_tokens p (token :: tokens)
  = match List.filter p token with
    | [] => facts.kept_tokens p tokens
    | c :: w => (c :: w) :: facts.kept_tokens p tokens
    end.
Proof.
  unfold facts.kept_tokens, facts.nonempty_tokens. simpl.
  by destruct (List.filter p token).
Qed.

(** Deleting characters that are not whitespace deletes them inside the
    words, and drops the words that become empty. *)
Lemma split_filter (p : N -> bool) (s : list N) :
  (forall c, isspace c = true -> p c = true) ->
  skip (List.filter p s) = facts.kept_tokens p (skip s)
  ∧ (scan (List.filter p s)
     = (List.filter p (scan s).1, facts.kept_tokens p (scan s).2)
     ∧ skip (List.filter p s)
       = facts.kept_tokens p ((scan s).1 :: (scan s).2)).
Proof.
  intros Hp. revert s.
  apply (skip_scan_ind
           (fun s ts => skip (List.filter p s) = facts.kept_tokens p ts)
           (fun s r =>
              scan (List.filter p s)
              = (List.filter p r.1, facts.kept_tokens p r.2)
              ∧ skip (List.filter p s) = facts.kept_tokens p (r.1 :: r.2))).
  - reflexivity.
  - split; reflexivity.
  - intros c s Hc IH _. simpl. rewrite (Hp c Hc). simpl. by rewrite Hc.
  - intros c s w ts Hc _ _ [IHscan IHskip]. simpl in *.
    rewrite kept_cons. simpl. destruct (p c) eqn:Hpc.
    + simpl. by rewrite Hc, IHscan.
    + by rewrite IHskip, kept_cons.
  - intros c s Hc IH _. simpl fst. simpl snd. simpl List.filter.
    rewrite (Hp c Hc). simpl. rewrite Hc. split.
    + by rewrite IH.
    + by rewrite kept_cons.
  - intros c s w ts Hc _ _ [IHscan IHskip]. simpl in *.
    rewrite kept_cons. simpl. destruct (p c) eqn:Hpc.
    + simpl. rewrite Hc, IHscan. by split.
    + rewrite IHscan, IHskip, kept_cons. by split.
Qed.

Lemma diacritic_not_space (c : N) :
  isspace c = true ->
  negb (existsb (N.eqb c) processing.ARABIC_DIACRITICS) = true.
Proof.
  intros Hc. apply not_diacritic_bool. unfold spec.is_diacritic.
  intros Hd. unfold processing.ARABIC_DIACRITICS in Hd.
  repeat (apply elem_of_cons in Hd as [-> | Hd]; [discriminate|]).
  by apply elem_of_nil in Hd.
Qed.

Lemma tokenize_remove_diacritics (text : list N) :
  processing.tokenize (processing.remove_diacritics text) false
  = facts.nonempty_tokens
      (map processing.remove_diacritics (processing.tokenize text false)).
Proof.
  unfold processing.tokenize, split. simpl.
  rewrite remove_diacritics_filter.
  rewrite (proj1 (split_filter _ text diacritic_not_space)).
  unfold facts.kept_tokens. f_equal. apply map_ext. intros token.
  by rewrite remove_diacritics_filter.
Qed.

Lemma tokenize_remove_diacritics_length (text : list N) :
  (length (processing.tokenize (processing.remove_diacritics text) false)
   <= length (processing.tokenize text false))%nat.
Proof.
  rewrite tokenize_remove_diacritics.
  unfold facts.nonempty_tokens.
  etransitivity; [apply filter_length_le|]. by rewrite length_map.
Qed.

End diacritics_and_words.

(** X23: removing diacritics removes them inside the words and drops the
    words left empty: the plain tokens of the text without diacritics are
    the plain tokens of the text, each without its diacritics, those that
    become empty left out.  The plain word count of a verse with
    [remove_diacritics] is therefore at most the one without. *)
Theorem X23_remove_diacritics_words (verse : Ayah.t) (normalize : bool) :
  (forall text,
     processing.tokenize (processing.remove_diacritics text) false
     = facts.nonempty_tokens
         (map processing.remove_diacritics (processing.tokenize text false)))
  ∧ exists without_marks with_marks : Z,
      Ayah.word_count verse (spec.configuration normalize true false)
        = Ok without_marks
      ∧ Ayah.word_count verse (spec.configuration normalize false false)
        = Ok with_marks
      ∧ (without_marks <= with_marks)%Z.
Proof.
  split; [apply tokenize_remove_diacritics|].
  eexists _, _. rewrite !word_count_text.
  split; [reflexivity|]. split; [reflexivity|].
  apply Nat2Z.inj_le. destruct normalize.
  - change (Ayah.get_processed_text verse true true)
      with (processing.normalize_arabic
              (Ayah.get_processed_text verse false true)).
    change (Ayah.get_processed_text verse true false)
      with (processing.normalize_arabic
              (Ayah.get_processed_text verse false false)).
    rewrite !tokenize_normalize, !length_map.
    apply tokenize_remove_diacritics_length.
  - apply tokenize_remove_diacritics_length.
Qed.
